(** * Website-CMS backend: authentication, authorization guard and the
      ownership-scoped page store

    A shallow embedding of [backend/server.js], and of the state and event
    handlers of [cms-frontend/src/App.jsx].  The Express handlers become
    functions from a database state to a response and a new database state;
    the SQLite tables become lists of rows in rowid order; the three external
    libraries ([jsonwebtoken], [bcryptjs] and SQLite's text-to-integer
    coercion of a bound parameter) are interfaces, with one executable
    instance of each at the end of the definitions.

    Modelling conventions.
    - A JSON body field is read at the type the API documents for it: a
      string that may be absent ([option string]).  JavaScript's [!x] is
      [js_not]: true on an absent field and on the empty string.
    - Row ids are unbounded integers ([Z]); [AUTOINCREMENT] hands out
      [seq + 1], where [seq] is the largest id the table ever assigned.
    - The clock is the number of seconds since the epoch, as [jsonwebtoken]
      reads it ([Math.floor(Date.now() / 1000)]).
    - Storage faults other than constraint violations (disk, locking) are not
      modelled; the handlers keep their error branches.
    - The browser application handles one event at a time; its conventions
      are given where it is defined. *)

From Stdlib Require Import ZArith Ascii String.
From Stdlib Require DecimalString.
From stdpp Require Import base decidable option list numbers strings countable.

Open Scope string_scope.
Open Scope Z_scope.

(** ** JavaScript values of the request bodies *)

(** [!x] for an optional string. *)
Definition js_not (x : option string) : bool :=
  match x with
  | None => true
  | Some "" => true
  | Some _ => false
  end.

(** The string a present field holds. *)
Definition str (x : option string) : string := default "" x.

(** [x || ''] for an optional string. *)
Definition or_empty (x : option string) : string :=
  if js_not x then "" else str x.

(** [s.split(' ')]: the pieces of [s] between single spaces; never empty. *)
Fixpoint split_space (s : string) : list string :=
  match s with
  | EmptyString => [EmptyString]
  | String c rest =>
      if Ascii.eqb c " "%char then EmptyString :: split_space rest
      else match split_space rest with
           | piece :: pieces => String c piece :: pieces
           | [] => [String c EmptyString]
           end
  end.

Fixpoint has_space (s : string) : bool :=
  match s with
  | EmptyString => false
  | String c rest => Ascii.eqb c " "%char || has_space rest
  end.

(** ** Callbacks

    A Node callback [(err, value)] carries either an error or a value. *)
Inductive callback (E A : Type) : Type :=
  | Err (e : E)
  | Done (a : A).
Arguments Err {E A} e.
Arguments Done {E A} a.

(** ** The tables

    [users (id, email UNIQUE NOT NULL, password NOT NULL)] and
    [pages (id, title NOT NULL, content, userId NOT NULL)]. *)
Record user := mkUser {
  user_id : Z;
  user_email : string;
  user_password : string
}.

Record page := mkPage {
  page_id : Z;
  page_title : string;
  page_content : option string;   (* [None] is SQL NULL *)
  page_userId : Z
}.

Record db := mkDb {
  users : list user;
  users_seq : Z;
  pages : list page;
  pages_seq : Z
}.

Definition empty_db : db := mkDb [] 0 [] 0.

(** A row of [SELECT id, title, content FROM pages]. *)
Record row := mkRow {
  row_id : Z;
  row_title : string;
  row_content : option string
}.

Definition row_of_page (p : page) : row :=
  mkRow (page_id p) (page_title p) (page_content p).

#[global] Instance user_eq_dec : EqDecision user.
Proof. solve_decision. Defined.
#[global] Instance page_eq_dec : EqDecision page.
Proof. solve_decision. Defined.
#[global] Instance row_eq_dec : EqDecision row.
Proof. solve_decision. Defined.

Inductive sqlite_error := SQLITE_CONSTRAINT | SQLITE_ERROR.

(** The coercion SQLite applies to a TEXT parameter compared with the
    INTEGER column [id] ([WHERE id = ?] with the path parameter, a string):
    the integer the text denotes, if it denotes one. *)
Class Sqlite := {
  integer_of_text : string → option Z
}.

(** [INSERT INTO users (email, password) VALUES (?, ?)]. *)
Definition insert_user (email password : string) (d : db)
  : callback sqlite_error (Z * db) :=
  if bool_decide (Exists (λ u, user_email u = email) (users d))
  then Err SQLITE_CONSTRAINT
  else
    let lastID := users_seq d + 1 in
    Done (lastID,
          mkDb (users d ++ [mkUser lastID email password]) lastID
               (pages d) (pages_seq d)).

(** [SELECT * FROM users WHERE email = ?] through [db.get]: the first row. *)
Definition get_user (email : string) (d : db)
  : callback sqlite_error (option user) :=
  Done (head (filter (λ u, user_email u = email) (users d))).

(** [SELECT id, title, content FROM pages WHERE userId = ?]. *)
Definition all_pages (userId : Z) (d : db)
  : callback sqlite_error (list row) :=
  Done (row_of_page <$> filter (λ p, page_userId p = userId) (pages d)).

(** [INSERT INTO pages (title, content, userId) VALUES (?, ?, ?)]. *)
Definition insert_page (title : string) (content : option string) (userId : Z)
    (d : db) : callback sqlite_error (Z * db) :=
  let lastID := pages_seq d + 1 in
  Done (lastID,
        mkDb (users d) (users_seq d)
             (pages d ++ [mkPage lastID title content userId]) lastID).

(** The rows a [WHERE id = ? AND userId = ?] selects. *)
Definition matches `{Sqlite} (pageId : string) (userId : Z) (p : page) : Prop :=
  integer_of_text pageId = Some (page_id p) ∧ page_userId p = userId.

#[global] Instance matches_dec `{Sqlite} pageId userId p :
  Decision (matches pageId userId p).
Proof. unfold matches. apply _. Defined.

(** What [SET title = ?, content = ?] makes of a row: the selected rows get
    the two fields, the others stay. *)
Definition set_fields `{Sqlite} (title : string) (content : option string)
    (pageId : string) (userId : Z) (p : page) : page :=
  if decide (matches pageId userId p)
  then mkPage (page_id p) title content (page_userId p)
  else p.

(** [UPDATE pages SET title = ?, content = ? WHERE id = ? AND userId = ?];
    the callback receives [this.changes]. *)
Definition update_page `{Sqlite} (title : string) (content : option string)
    (pageId : string) (userId : Z) (d : db) : callback sqlite_error (nat * db) :=
  Done (length (filter (matches pageId userId) (pages d)),
        mkDb (users d) (users_seq d)
             (set_fields title content pageId userId <$> pages d) (pages_seq d)).

(** [DELETE FROM pages WHERE id = ? AND userId = ?]. *)
Definition delete_page `{Sqlite} (pageId : string) (userId : Z) (d : db)
  : callback sqlite_error (nat * db) :=
  Done (length (filter (matches pageId userId) (pages d)),
        mkDb (users d) (users_seq d)
             (filter (λ p, ¬ matches pageId userId p) (pages d)) (pages_seq d)).

(** ** Session tokens ([jsonwebtoken]) *)

(** The payload [login] signs, with the timestamps [jwt.sign] adds. *)
Record claims := mkClaims {
  claims_id : Z;
  claims_email : string;
  iat : Z;
  exp : Z
}.

#[global] Instance claims_eq_dec : EqDecision claims.
Proof. solve_decision. Defined.

(** The signed compact serialization: [jws_sign] serializes and signs a
    payload under a key, [jws_open] checks a token against a key and reads
    the payload back.  The serialization has no blank in it. *)
Class Jwt := {
  jws_sign : claims → string → string;
  jws_open : string → string → option claims;
  jws_open_sign : ∀ c key, jws_open (jws_sign c key) key = Some c;
  jws_sign_compact : ∀ c key, has_space (jws_sign c key) = false
}.

Inductive jwt_error := JsonWebTokenError | TokenExpiredError.

(** [jwt.sign({id, email}, secret, {expiresIn: '1h'})] at time [now]. *)
Definition jwt_sign `{Jwt} (id : Z) (email : string) (secret : string)
    (now : Z) : string :=
  jws_sign (mkClaims id email now (now + 3600)) secret.

(** [jwt.verify(token, secret, callback)] at time [now]: the signature is
    checked first, then the expiry ([now >= exp] is expired).  The payloads
    are those [login] signs, which carry [iat] and [exp] and no [nbf]; the
    library's test of [nbf] has no counterpart here. *)
Definition jwt_verify `{Jwt} (token secret : string) (now : Z)
  : callback jwt_error claims :=
  match jws_open token secret with
  | None => Err JsonWebTokenError
  | Some c => if bool_decide (exp c ≤ now) then Err TokenExpiredError else Done c
  end.

(** ** Password hashing ([bcryptjs]) *)

(** [bcrypt_hash s rounds salt] is [bcrypt.hash(s, rounds)] when the library
    draws the salt [salt]; [bcrypt_compare s hash] is [bcrypt.compare]. *)
Class Bcrypt := {
  bcrypt_hash : string → Z → string → string;
  bcrypt_compare : string → string → bool;
  bcrypt_compare_hash :
    ∀ s rounds salt, bcrypt_compare s (bcrypt_hash s rounds salt) = true
}.

(** ** Responses *)

Inductive body :=
  | Empty                                   (* [res.send()] *)
  | Text (phrase : string)                  (* [res.sendStatus]: the status phrase *)
  | Message (message : string)              (* [{ message }] *)
  | UserCreated (message : string) (userId : Z)
  | AccessToken (accessToken : string)
  | Rows (rows : list row)
  | PageCreated (id : Z) (title : string) (content : option string) (userId : Z).

Record response := mkResponse {
  status : Z;
  payload : body
}.

Definition sendStatus (code : Z) : response :=
  mkResponse code
    (Text (if bool_decide (code = 401) then "Unauthorized"
           else if bool_decide (code = 403) then "Forbidden"
           else "")).

(** [res.status(code).json(x)] and [res.json(x)]. *)
Definition json (code : Z) (x : body) : response := mkResponse code x.

(** ** Requests *)

Inductive request :=
  | POST_register (email password : option string)
  | POST_login (email password : option string)
  | GET_pages (authorization : option string)
  | POST_pages (authorization : option string) (title content : option string)
  | PUT_pages (authorization : option string) (id : string)
              (title content : option string)
  | DELETE_pages (authorization : option string) (id : string).

(** What a request finds outside itself: the clock and the salt the hash
    would draw. *)
Record env := mkEnv {
  clock : Z;
  entropy : string
}.

(** ** The server *)

Definition JWT_SECRET : string := "your_super_secret_key_change_this".

Section Server.
Context `{Jwt, Bcrypt, Sqlite}.

(** [authHeader && authHeader.split(' ')[1]]: [None] is [undefined]; an
    empty header is falsy and is itself the value of the conjunction. *)
Definition bearer_token (authHeader : option string) : option string :=
  match authHeader with
  | None => None
  | Some "" => Some ""
  | Some h => split_space h !! 1%nat
  end.

(** The middleware: [next] receives the request with [req.user] set. *)
Definition authenticateToken (now : Z) (authHeader : option string)
    (next : claims → db → response * db) (d : db) : response * db :=
  match bearer_token authHeader with
  | None => (sendStatus 401, d)
  | Some token =>
      match jwt_verify token JWT_SECRET now with
      | Err _ => (sendStatus 403, d)
      | Done user => next user d
      end
  end.

(** [POST /api/register]; [salt] is the salt [bcrypt.hash] draws.  On a
    string [bcrypt.hash] does not throw, so the [catch] branch (500, "Server
    error during registration.") has no counterpart here. *)
Definition post_register (salt : string) (email password : option string)
    (d : db) : response * db :=
  if js_not email || js_not password
  then (json 400 (Message "Email and password are required."), d)
  else
    let hashedPassword := bcrypt_hash (str password) 10 salt in
    match insert_user (str email) hashedPassword d with
    | Err SQLITE_CONSTRAINT => (json 409 (Message "Email already in use."), d)
    | Err _ => (json 500 (Message "Database error during registration."), d)
    | Done (lastID, d') =>
        (json 201 (UserCreated "User created successfully." lastID), d')
    end.

(** [POST /api/login] at time [now]. *)
Definition post_login (now : Z) (email password : option string) (d : db)
  : response * db :=
  if js_not email || js_not password
  then (json 400 (Message "Email and password are required."), d)
  else
    match get_user (str email) d with
    | Err _ => (json 500 (Message "Database error during login."), d)
    | Done None => (json 401 (Message "Invalid credentials."), d)
    | Done (Some user) =>
        let isMatch := bcrypt_compare (str password) (user_password user) in
        if negb isMatch
        then (json 401 (Message "Invalid credentials."), d)
        else
          let accessToken :=
            jwt_sign (user_id user) (user_email user) JWT_SECRET now in
          (json 200 (AccessToken accessToken), d)
    end.

(** [GET /api/pages], behind the middleware. *)
Definition get_pages (user : claims) (d : db) : response * db :=
  let userId := claims_id user in
  match all_pages userId d with
  | Err _ => (json 500 (Message "Could not retrieve pages."), d)
  | Done rows => (json 200 (Rows rows), d)
  end.

(** [POST /api/pages]. *)
Definition post_pages (title content : option string) (user : claims)
    (d : db) : response * db :=
  let userId := claims_id user in
  if js_not title
  then (json 400 (Message "Title is required."), d)
  else
    match insert_page (str title) (Some (or_empty content)) userId d with
    | Err _ => (json 500 (Message "Could not create page."), d)
    | Done (lastID, d') =>
        (json 201 (PageCreated lastID (str title) content userId), d')
    end.

(** [PUT /api/pages/:id]. *)
Definition put_pages (pageId : string) (title content : option string)
    (user : claims) (d : db) : response * db :=
  let userId := claims_id user in
  if js_not title
  then (json 400 (Message "Title is required."), d)
  else
    match update_page (str title) content pageId userId d with
    | Err _ => (json 500 (Message "Could not update page."), d)
    | Done (changes, d') =>
        if bool_decide (changes = 0%nat)
        then (json 404 (Message
                "Page not found or you don't have permission to edit it."), d')
        else (json 200 (Message "Page updated successfully."), d')
    end.

(** [DELETE /api/pages/:id]. *)
Definition delete_pages (pageId : string) (user : claims) (d : db)
  : response * db :=
  let userId := claims_id user in
  match delete_page pageId userId d with
  | Err _ => (json 500 (Message "Could not delete page."), d)
  | Done (changes, d') =>
      if bool_decide (changes = 0%nat)
      then (json 404 (Message
              "Page not found or you don't have permission to delete it."), d')
      else (mkResponse 204 Empty, d')
  end.

(** ** The router *)

Definition app (e : env) (req : request) (d : db) : response * db :=
  match req with
  | POST_register email password =>
      post_register (entropy e) email password d
  | POST_login email password =>
      post_login (clock e) email password d
  | GET_pages authorization =>
      authenticateToken (clock e) authorization get_pages d
  | POST_pages authorization title content =>
      authenticateToken (clock e) authorization (post_pages title content) d
  | PUT_pages authorization id title content =>
      authenticateToken (clock e) authorization (put_pages id title content) d
  | DELETE_pages authorization id =>
      authenticateToken (clock e) authorization (delete_pages id) d
  end.

(** The database after a sequence of requests. *)
Fixpoint run (d : db) (calls : list (env * request)) : db :=
  match calls with
  | [] => d
  | (e, req) :: rest => run (app e req d).2 rest
  end.

(** The middleware lets the request through as [user]. *)
Definition authenticated (now : Z) (authHeader : option string)
    (user : claims) : Prop :=
  ∃ token, bearer_token authHeader = Some token ∧
           jwt_verify token JWT_SECRET now = Done user.

(** The request is let through as some user whose id is [P]. *)
Definition as_principal (P : Z) (e : env) (authorization : option string)
  : Prop :=
  ∃ user, authenticated (clock e) authorization user ∧ claims_id user = P.

(** What one request does to the page table. *)
Inductive pages_step (e : env) (req : request) (d d' : db) : Prop :=
  | step_kept :
      pages d' = pages d → pages_seq d' = pages_seq d →
      pages_step e req d d'
  | step_created authorization title content user :
      req = POST_pages authorization title content →
      authenticated (clock e) authorization user →
      js_not title = false →
      pages d' = (pages d ++ [mkPage (pages_seq d + 1) (str title)
                                (Some (or_empty content)) (claims_id user)])%list →
      pages_seq d' = pages_seq d + 1 →
      pages_step e req d d'
  | step_updated authorization pageId title content user :
      req = PUT_pages authorization pageId title content →
      authenticated (clock e) authorization user →
      js_not title = false →
      pages d' = set_fields (str title) content pageId (claims_id user)
                   <$> pages d →
      pages_seq d' = pages_seq d →
      pages_step e req d d'
  | step_deleted authorization pageId user :
      req = DELETE_pages authorization pageId →
      authenticated (clock e) authorization user →
      pages d' = filter (λ p, ¬ matches pageId (claims_id user) p) (pages d) →
      pages_seq d' = pages_seq d →
      pages_step e req d d'.

(** ** Well-formed page tables

    What SQLite maintains for an [INTEGER PRIMARY KEY AUTOINCREMENT]
    column: ids are unique and none exceeds the recorded sequence. *)
Definition pages_wf (d : db) : Prop :=
  NoDup (page_id <$> pages d) ∧
  Forall (λ p, page_id p ≤ pages_seq d) (pages d).

End Server.

(** ** The header shape the interface documents

    [Authorization: Bearer <signed-token>]: the word [Bearer], one blank and
    a non-empty token without blanks.  The middleware does not use this
    definition; it is here to be compared with [bearer_token]. *)
Definition bearer_shape (authHeader : string) : bool :=
  match split_space authHeader with
  | [scheme; token] => String.eqb scheme "Bearer" && negb (String.eqb token "")
  | _ => false
  end.

(** ** Notions used to state what the routes do

    The rows [GET /api/pages] answers a principal, the header a request
    carries, and what SQLite maintains for the [users] table: unique emails
    ([UNIQUE]), unique ids none of which exceeds the recorded sequence. *)
Definition listing (P : Z) (d : db) : list row :=
  row_of_page <$> filter (λ p, page_userId p = P) (pages d).

Definition request_authorization (req : request) : option (option string) :=
  match req with
  | POST_register _ _ | POST_login _ _ => None
  | GET_pages authorization
  | POST_pages authorization _ _
  | PUT_pages authorization _ _ _
  | DELETE_pages authorization _ => Some authorization
  end.

Definition users_wf (d : db) : Prop :=
  NoDup (user_email <$> users d) ∧
  NoDup (user_id <$> users d) ∧
  Forall (λ u, user_id u ≤ users_seq d) (users d).

(** ** The browser application ([cms-frontend/src/App.jsx])

    The component's state and its event handlers, one event at a time, each
    handler run to its end against the server above.  A handler that awaits
    two responses takes two environments, one per request.  The effect that
    depends on [token] is run when the handler that changed [token] has
    finished.  What is drawn on the screen is left out, except for which of
    the three views is shown, since that decides which events can occur.
    A request always reaches the server ([fetch] does not fail). *)

(** The messages of the exceptions the JavaScript engine throws: parsing a
    body that is not JSON, and calling [filter] on a value that has none. *)
Class Browser := {
  json_syntax_error : string → string;
  not_a_function_error : string
}.

(** A template literal [`${n}`] of an integer. *)
Definition number_to_string (n : Z) : string :=
  DecimalString.NilZero.string_of_int (Z.to_int n).

(** [currentPage] and [pageToSave]: a row of the list or a new page, which
    has no [id]. *)
Record form := mkForm {
  form_id : option Z;
  form_title : string;
  form_content : option string
}.

(** [localStorage]'s ['token'] and the five [useState] cells of [App];
    [pages] holds whatever JSON value [setPages] was given. *)
Record client := mkClient {
  stored_token : option string;
  app_token : option string;
  app_pages : body;
  app_currentPage : option form;
  app_error : string;
  app_loading : bool
}.

Definition setPages (x : body) (c : client) : client :=
  mkClient (stored_token c) (app_token c) x (app_currentPage c)
           (app_error c) (app_loading c).
Definition setCurrentPage (x : option form) (c : client) : client :=
  mkClient (stored_token c) (app_token c) (app_pages c) x
           (app_error c) (app_loading c).
Definition setError (x : string) (c : client) : client :=
  mkClient (stored_token c) (app_token c) (app_pages c) (app_currentPage c)
           x (app_loading c).
Definition setLoading (x : bool) (c : client) : client :=
  mkClient (stored_token c) (app_token c) (app_pages c) (app_currentPage c)
           (app_error c) x.
(** [localStorage.removeItem('token'); setToken(null)]. *)
Definition removeToken (c : client) : client :=
  mkClient None None (app_pages c) (app_currentPage c)
           (app_error c) (app_loading c).

(** The state after the first render: [useState(localStorage.getItem('token'))]. *)
Definition initial_client (stored : option string) : client :=
  mkClient stored stored (Rows []) None "" false.

(** [response.ok]. *)
Definition ok (r : response) : bool := bool_decide (200 ≤ status r ≤ 299).

(** [x.message] of a parsed body, and [x || fallback]. *)
Definition message_of (x : body) : option string :=
  match x with
  | Message message | UserCreated message _ => Some message
  | _ => None
  end.

Definition accessToken_of (x : body) : option string :=
  match x with
  | AccessToken accessToken => Some accessToken
  | _ => None
  end.

Definition or_else (x : option string) (fallback : string) : string :=
  if js_not x then fallback else str x.

(** The events of the three views. *)
Inductive event :=
  | Submit (isSignUp : bool) (email password : string)
  | Logout
  | SelectPage (page : row)
  | CreateNew
  | Back
  | Save (title htmlContent : string)
  | Delete (confirm : bool) (pageId : Z)
  | DismissError.

(** The request [handleSavePage] sends first: [isUpdating] is
    [pageToSave.id], which is falsy when absent and when zero. *)
Definition save_request (pageToSave : form) (authorization : option string)
  : request :=
  let isUpdating :=
    match form_id pageToSave with
    | Some id => negb (bool_decide (id = 0))
    | None => false
    end in
  if isUpdating
  then PUT_pages authorization
         (number_to_string (default 0 (form_id pageToSave)))
         (Some (form_title pageToSave)) (form_content pageToSave)
  else POST_pages authorization
         (Some (form_title pageToSave)) (form_content pageToSave).

Section Client.
Context `{Jwt, Bcrypt, Sqlite, Browser}.

(** [await response.json()]: the bodies [sendStatus] and [send] write are
    not JSON. *)
Definition response_json (r : response) : callback string body :=
  match payload r with
  | Text phrase => Err (json_syntax_error phrase)
  | Empty => Err (json_syntax_error "")
  | x => Done x
  end.

(** [authenticatedFetch]: [route] is the request the url and the options
    select, given the [Authorization] header. *)
Definition authenticatedFetch (e : env) (route : option string → request)
    (c : client) (d : db) : response * client * db :=
  let currentToken := stored_token c in
  let authorization :=
    if js_not currentToken then None
    else Some ("Bearer " +:+ str currentToken) in
  let '(response, d') := app e (route authorization) d in
  if bool_decide (status response = 401) || bool_decide (status response = 403)
  then (response,
        setError "Your session has expired. Please sign in again."
                 (removeToken c), d')
  else (response, c, d').

(** The body of the effect on [token]. *)
Definition effect (e : env) (c : client) (d : db) : client * db :=
  if js_not (app_token c) then (setPages (Rows []) c, d)
  else
    let '(res, c1, d1) := authenticatedFetch e GET_pages (setLoading true c) d in
    let c2 :=
      if negb (ok res) then setError "Failed to fetch pages." c1
      else match response_json res with
           | Err message => setError message c1
           | Done data => setPages data c1
           end in
    (setLoading false c2, d1).

(** The effect, and once more if it changed [token] itself (a rejected
    request removes it). *)
Definition run_effect (e : env) (c : client) (d : db) : client * db :=
  let '(c1, d1) := effect e c d in
  if decide (app_token c1 = app_token c) then (c1, d1)
  else effect e c1 d1.

(** The effect runs after a render in which [token] has changed. *)
Definition useEffect (e : env) (before : client) (c : client) (d : db)
  : client * db :=
  if decide (app_token c = app_token before) then (c, d)
  else run_effect e c d.

(** Loading the page: the first render, then the effect. *)
Definition mount (e : env) (stored : option string) (d : db) : client * db :=
  run_effect e (initial_client stored) d.

(** [localStorage.setItem] stores the string of its argument. *)
Definition handleLoginSuccess (newToken : option string) (c : client) : client :=
  mkClient (Some (match newToken with
                  | Some t => t
                  | None => "undefined"
                  end))
           newToken (app_pages c) (app_currentPage c) "" (app_loading c).

Definition handleLogout (c : client) : client :=
  setCurrentPage None (removeToken c).

Definition handleSavePage (e1 e2 : env) (pageToSave : form) (c : client)
    (d : db) : client * db :=
  let '(response, c1, d1) :=
    authenticatedFetch e1 (save_request pageToSave) c d in
  if negb (ok response) then
    match response_json response with
    | Err message => (setError message c1, d1)
    | Done errData =>
        (setError (or_else (message_of errData) "Failed to save page.") c1, d1)
    end
  else
    let '(updatedPagesResponse, c2, d2) :=
      authenticatedFetch e2 GET_pages c1 d1 in
    match response_json updatedPagesResponse with
    | Err message => (setError message c2, d2)
    | Done updatedPages => (setCurrentPage None (setPages updatedPages c2), d2)
    end.

Definition handleDeletePage (e : env) (confirm : bool) (pageId : Z)
    (c : client) (d : db) : client * db :=
  if confirm then
    let '(response, c1, d1) :=
      authenticatedFetch e
        (λ authorization, DELETE_pages authorization (number_to_string pageId))
        c d in
    if negb (ok response) then (setError "Failed to delete page." c1, d1)
    else
      match app_pages c with
      | Rows pages =>
          (setPages (Rows (filter (λ p, row_id p ≠ pageId) pages)) c1, d1)
      | _ => (setError not_a_function_error c1, d1)
      end
  else (c, d).

(** [AuthComponent]'s [handleSubmit], for what it does to [App]. *)
Definition handleSubmit (e : env) (isSignUp : bool) (email password : string)
    (c : client) (d : db) : client * db :=
  let c0 := setError "" c in
  let '(response, d1) :=
    app e (if isSignUp then POST_register (Some email) (Some password)
           else POST_login (Some email) (Some password)) d in
  match response_json response with
  | Err message => (setError message c0, d1)
  | Done data =>
      if negb (ok response)
      then (setError (or_else (message_of data) "An error occurred.") c0, d1)
      else if isSignUp then (c0, d1)
      else (handleLoginSuccess (accessToken_of data) c0, d1)
  end.

(** [PageEditor]'s [handleSave]: [onSave({...page, title, content})]. *)
Definition handleSave (page : form) (title htmlContent : string) : form :=
  mkForm (form_id page) title (Some htmlContent).

(** One event.  [!token] shows the sign-in form, [currentPage] the editor,
    and otherwise the list; the sign-out button is there with a token.  An
    event of a view that is not shown leaves everything as it is.  The
    handlers are taken as functions of their arguments.  The inputs of the
    two forms are [required]: a browser raises [Save] only with a title,
    and [Submit] only with an email and a password.  The step admits the
    other events too, so what holds of every event holds of those a
    browser raises. *)
Definition client_step (e1 e2 : env) (ev : event) (c : client) (d : db)
  : client * db :=
  let signedIn := negb (js_not (app_token c)) in
  let editing := signedIn && bool_decide (is_Some (app_currentPage c)) in
  let listing := signedIn && negb (bool_decide (is_Some (app_currentPage c))) in
  let '(c1, d1) :=
    match ev with
    | Submit isSignUp email password =>
        if signedIn then (c, d) else handleSubmit e1 isSignUp email password c d
    | Logout => if signedIn then (handleLogout c, d) else (c, d)
    | SelectPage page =>
        if listing
        then (setCurrentPage
                (Some (mkForm (Some (row_id page)) (row_title page)
                              (row_content page))) c, d)
        else (c, d)
    | CreateNew =>
        if listing then (setCurrentPage (Some (mkForm None "" (Some ""))) c, d)
        else (c, d)
    | Back => if editing then (setCurrentPage None c, d) else (c, d)
    | Save title htmlContent =>
        match app_currentPage c with
        | Some page =>
            if signedIn
            then handleSavePage e1 e2 (handleSave page title htmlContent) c d
            else (c, d)
        | None => (c, d)
        end
    | Delete confirm pageId =>
        if listing then handleDeletePage e1 confirm pageId c d else (c, d)
    | DismissError => (setError "" c, d)
    end in
  useEffect e2 c c1 d1.

(** The client's token cells agree. *)
Definition in_sync (c : client) : Prop := stored_token c = app_token c.

End Client.


(** ** Executable instances of the three interfaces

    Transparent stand-ins, for running the model on concrete requests: a
    codec that writes the payload and the key as a string of binary digits, a
    hash that appends the password to the salt, and the decimal reading of a
    text.  None of them is meant to be safe to deploy.  The fourth instance
    gives the browser's exception messages. *)
Module Ref.

Fixpoint bits_of_pos (p : positive) : string :=
  match p with
  | xH => ""
  | xO q => String "0" (bits_of_pos q)
  | xI q => String "1" (bits_of_pos q)
  end.

Fixpoint pos_of_bits (s : string) : option positive :=
  match s with
  | EmptyString => Some xH
  | String c rest =>
      if Ascii.eqb c "0"%char then xO <$> pos_of_bits rest
      else if Ascii.eqb c "1"%char then xI <$> pos_of_bits rest
      else None
  end.

Definition sign (c : claims) (key : string) : string :=
  String "J"
    (bits_of_pos (encode (claims_id c, claims_email c, iat c, exp c, key))).

Definition open (token key : string) : option claims :=
  match token with
  | String c bits =>
      if Ascii.eqb c "J"%char then
        p ← pos_of_bits bits;
        '(id, email, issued, expires, key') ← decode p;
        if decide (key' = key) then Some (mkClaims id email issued expires)
        else None
      else None
  | EmptyString => None
  end.

Fixpoint ends_with (suffix s : string) : bool :=
  String.eqb suffix s ||
  match s with
  | EmptyString => false
  | String _ rest => ends_with suffix rest
  end.

Definition hash (s : string) (rounds : Z) (salt : string) : string :=
  salt +:+ String "$" s.

Definition compare (s hashed : string) : bool :=
  ends_with (String "$" s) hashed.

Definition digit (c : ascii) : option Z :=
  let n := Z.of_N (N_of_ascii c) - 48 in
  if bool_decide (0 ≤ n ≤ 9) then Some n else None.

Fixpoint decimal (acc : Z) (s : string) : option Z :=
  match s with
  | EmptyString => Some acc
  | String c rest => n ← digit c; decimal (10 * acc + n) rest
  end.

Definition integer (s : string) : option Z :=
  match s with
  | EmptyString => None
  | _ => decimal 0 s
  end.

Lemma pos_of_bits_of_pos p : pos_of_bits (bits_of_pos p) = Some p.
Proof. induction p as [q IH|q IH|]; simpl; by rewrite ?IH. Qed.

Lemma bits_of_pos_compact p : has_space (bits_of_pos p) = false.
Proof. induction p; simpl; done. Qed.

Lemma open_sign c key : open (sign c key) key = Some c.
Proof.
  unfold open, sign. simpl. rewrite pos_of_bits_of_pos. simpl.
  rewrite decode_encode. simpl. rewrite decide_True by done. by destruct c.
Qed.

Lemma sign_compact c key : has_space (sign c key) = false.
Proof. unfold sign. simpl. apply bits_of_pos_compact. Qed.

Lemma ends_with_app suffix prefix : ends_with suffix (prefix +:+ suffix) = true.
Proof.
  induction prefix as [|c prefix IH]; simpl.
  - destruct suffix; simpl; rewrite ?String.eqb_refl, ?Ascii.eqb_refl; done.
  - rewrite IH. apply orb_true_r.
Qed.

Lemma compare_hash s rounds salt : compare s (hash s rounds salt) = true.
Proof. apply ends_with_app. Qed.

#[export] Instance jwt : Jwt :=
  {| jws_sign := sign; jws_open := open;
     jws_open_sign := open_sign; jws_sign_compact := sign_compact |}.

#[export] Instance bcrypt : Bcrypt :=
  {| bcrypt_hash := hash; bcrypt_compare := compare;
     bcrypt_compare_hash := compare_hash |}.

#[export] Instance sqlite : Sqlite := {| integer_of_text := integer |}.

#[export] Instance browser : Browser :=
  {| json_syntax_error := λ text, "Unexpected token in JSON: " +:+ text;
     not_a_function_error := "pages.filter is not a function" |}.

End Ref.

(** * Properties *)

(** ** Splitting the header *)

Lemma split_space_inhabited s : split_space s ≠ [].
Proof.
  induction s as [|c s IH]; simpl; [done|].
  destruct (Ascii.eqb c " "%char); [done|].
  by destruct (split_space s).
Qed.

Lemma split_space_compact s : has_space s = false → split_space s = [s].
Proof.
  induction s as [|c s IH]; simpl; [done|].
  destruct (Ascii.eqb c " "%char); simpl; [done|].
  intros Hs. by rewrite IH.
Qed.

Lemma split_space_second s : has_space s = true → is_Some (split_space s !! 1%nat).
Proof.
  induction s as [|c s IH]; simpl; [done|].
  destruct (Ascii.eqb c " "%char); simpl.
  - intros _. pose proof (split_space_inhabited s).
    destruct (split_space s); [done|]. by eexists.
  - intros Hs. destruct (IH Hs) as [t Ht].
    destruct (split_space s) as [|piece pieces]; [done|]. by exists t.
Qed.

Lemma split_space_app scheme rest :
  has_space scheme = false →
  split_space (scheme +:+ String " " rest) = scheme :: split_space rest.
Proof.
  induction scheme as [|c scheme IH]; simpl; [done|].
  destruct (Ascii.eqb c " "%char); simpl; [done|].
  intros Hs. by rewrite IH.
Qed.

Lemma split_space_scheme_token scheme token :
  has_space scheme = false → has_space token = false →
  split_space (scheme +:+ String " " token) !! 1%nat = Some token.
Proof.
  intros Hs Ht. by rewrite split_space_app, (split_space_compact token).
Qed.

Section Guard.
Context `{Jwt}.

Lemma bearer_token_none authHeader :
  bearer_token authHeader = None ↔
  authHeader = None ∨
  ∃ h, authHeader = Some h ∧ h ≠ "" ∧ has_space h = false.
Proof.
  split.
  - destruct authHeader as [h|]; [|by left]. intros Hnone. right.
    exists h. destruct h as [|c h]; [done|].
    split; [done|]. split; [done|].
    destruct (has_space (String c h)) eqn:Hs; [|done].
    destruct (split_space_second _ Hs) as [t Ht].
    unfold bearer_token in Hnone. congruence.
  - intros [->|(h & -> & Hne & Hs)]; [done|].
    destruct h as [|c h]; [done|].
    unfold bearer_token. by rewrite split_space_compact.
Qed.

Lemma bearer_token_second h token :
  split_space h !! 1%nat = Some token → bearer_token (Some h) = Some token.
Proof. destruct h; [done|]. intros Hs. exact Hs. Qed.

Lemma authenticateToken_verified now authHeader token user next d :
  bearer_token authHeader = Some token →
  jwt_verify token JWT_SECRET now = Done user →
  authenticateToken now authHeader next d = next user d.
Proof. intros Ht Hv. unfold authenticateToken. by rewrite Ht, Hv. Qed.

Lemma authenticateToken_refused now authHeader token err next d :
  bearer_token authHeader = Some token →
  jwt_verify token JWT_SECRET now = Err err →
  authenticateToken now authHeader next d = (sendStatus 403, d).
Proof. intros Ht Hv. unfold authenticateToken. by rewrite Ht, Hv. Qed.

Lemma jwt_verify_sign id email now0 now :
  jwt_verify (jwt_sign id email JWT_SECRET now0) JWT_SECRET now =
  if bool_decide (now0 + 3600 ≤ now) then Err TokenExpiredError
  else Done (mkClaims id email now0 (now0 + 3600)).
Proof. unfold jwt_verify, jwt_sign. by rewrite jws_open_sign. Qed.

End Guard.

(** ** The page table *)

Lemma db_eta d : mkDb (users d) (users_seq d) (pages d) (pages_seq d) = d.
Proof. by destruct d. Qed.

Lemma page_id_inj_on (l : list page) p q :
  NoDup (page_id <$> l) → p ∈ l → q ∈ l → page_id p = page_id q → p = q.
Proof.
  induction l as [|x l IH]; [by intros _ ?%elem_of_nil|].
  intros [Hx Hl]%list.NoDup_cons Hp Hq Hid.
  apply elem_of_cons in Hp as [->|Hp]; apply elem_of_cons in Hq as [->|Hq].
  - done.
  - destruct Hx. rewrite Hid. by apply list_elem_of_fmap_2.
  - destruct Hx. rewrite <- Hid. by apply list_elem_of_fmap_2.
  - by apply IH.
Qed.

Section Table.
Context `{Sqlite}.

Lemma set_fields_id title content pageId userId p :
  page_id (set_fields title content pageId userId p) = page_id p.
Proof. unfold set_fields. by case_decide. Qed.

Lemma set_fields_userId title content pageId userId p :
  page_userId (set_fields title content pageId userId p) = page_userId p.
Proof. unfold set_fields. by case_decide. Qed.

Lemma set_fields_unselected title content pageId userId (l : list page) :
  Forall (λ p, ¬ matches pageId userId p) l →
  set_fields title content pageId userId <$> l = l.
Proof.
  induction 1 as [|p l Hp _ IH]; [done|].
  rewrite fmap_cons, IH. unfold set_fields. by rewrite decide_False.
Qed.

Lemma filter_unselected pageId userId (l : list page) :
  Forall (λ p, ¬ matches pageId userId p) l →
  filter (matches pageId userId) l = [] ∧
  filter (λ p, ¬ matches pageId userId p) l = l.
Proof.
  induction 1 as [|p l Hp _ [IH1 IH2]]; [done|].
  by rewrite filter_cons_False, filter_cons_True, IH1, IH2.
Qed.

Lemma filter_selected pageId userId (l : list page) p :
  p ∈ l → matches pageId userId p →
  length (filter (matches pageId userId) l) ≠ 0%nat.
Proof.
  intros Hp Hm Hlen. apply length_zero_iff_nil in Hlen.
  by apply (filter_nil_not_elem_of _ _ p Hlen Hm).
Qed.

(** A page of another owner is selected by no [WHERE id = ? AND userId = ?]
    that names its id, because ids are unique. *)
Lemma foreign_unselected d p pageId userId :
  pages_wf d → p ∈ pages d →
  integer_of_text pageId = Some (page_id p) → page_userId p ≠ userId →
  Forall (λ q, ¬ matches pageId userId q) (pages d).
Proof.
  intros [Hnd _] Hp Hid Howner. apply list.Forall_forall. intros q Hq [Hqid Hqo].
  rewrite Hid in Hqid. injection Hqid as Hqid.
  assert (p = q) as -> by (apply (page_id_inj_on (pages d)); done).
  done.
Qed.

Lemma pages_wf_empty : pages_wf empty_db.
Proof. split; [apply NoDup_nil_2|apply Forall_nil_2]. Qed.

Lemma pages_wf_insert d title content userId :
  pages_wf d →
  pages_wf (mkDb (users d) (users_seq d)
              (pages d ++ [mkPage (pages_seq d + 1) title content userId])
              (pages_seq d + 1)).
Proof.
  intros [Hnd Hle]. split; simpl.
  - rewrite fmap_app. apply list.NoDup_app. split; [done|]. split.
    + intros i Hi Hi'. apply list_elem_of_fmap in Hi as (q & -> & Hq).
      rewrite list.Forall_forall in Hle. specialize (Hle q Hq).
      apply list_elem_of_singleton in Hi'. simpl in Hi'. lia.
    + apply NoDup_singleton.
  - apply list.Forall_app. split.
    + eapply list.Forall_impl; [done|]. simpl. intros; lia.
    + apply Forall_singleton. simpl. lia.
Qed.

Lemma pages_wf_update d title content pageId userId :
  pages_wf d →
  pages_wf (mkDb (users d) (users_seq d)
              (set_fields title content pageId userId <$> pages d)
              (pages_seq d)).
Proof.
  intros [Hnd Hle]. split; simpl.
  - rewrite <- list_fmap_compose.
    erewrite list_fmap_ext; [done|]. intros ? p _. simpl.
    apply set_fields_id.
  - apply Forall_fmap. eapply list.Forall_impl; [done|]. simpl.
    intros p Hp. by rewrite set_fields_id.
Qed.

Lemma pages_wf_delete d pageId userId :
  pages_wf d →
  pages_wf (mkDb (users d) (users_seq d)
              (filter (λ p, ¬ matches pageId userId p) (pages d))
              (pages_seq d)).
Proof.
  intros [Hnd Hle]. split; simpl.
  - eapply sublist_NoDup; [done|]. apply fmap_sublist, sublist_filter.
  - apply list.Forall_forall. intros p [_ Hp]%list_elem_of_filter.
    by eapply list.Forall_forall in Hle.
Qed.

End Table.

(** ** The guarded routes *)

Section Routes.
Context `{Jwt, Bcrypt, Sqlite}.

Lemma authenticateToken_admits now authHeader user next d :
  authenticated now authHeader user →
  authenticateToken now authHeader next d = next user d.
Proof. intros (token & Ht & Hv). by eapply authenticateToken_verified. Qed.

Lemma authenticated_unique now authHeader user user' :
  authenticated now authHeader user → authenticated now authHeader user' →
  user = user'.
Proof. intros (t & Ht & Hv) (t' & Ht' & Hv'). congruence. Qed.

Lemma authenticateToken_cases now authHeader next d :
  authenticateToken now authHeader next d = (sendStatus 401, d) ∨
  authenticateToken now authHeader next d = (sendStatus 403, d) ∨
  ∃ user, authenticated now authHeader user ∧
          authenticateToken now authHeader next d = next user d.
Proof.
  unfold authenticateToken.
  destruct (bearer_token authHeader) as [token|] eqn:Ht; [|by left].
  destruct (jwt_verify token JWT_SECRET now) as [err|user] eqn:Hv.
  - right. by left.
  - right. right. exists user. split; [by exists token|done].
Qed.

(** A request on a page of another owner: the listing, the update and the
    deletion, in a well-formed table. *)
Lemma get_pages_foreign d p user rows :
  pages_wf d → p ∈ pages d → claims_id user ≠ page_userId p →
  get_pages user d = (json 200 (Rows rows), d) →
  ∀ r, r ∈ rows → row_id r ≠ page_id p.
Proof.
  intros [Hnd _] Hp Howner [= <-] r Hr Hid.
  apply list_elem_of_fmap in Hr as (q & -> & Hq).
  apply list_elem_of_filter in Hq as [Hqo Hq].
  assert (q = p) as -> by (apply (page_id_inj_on (pages d)); done).
  done.
Qed.

Lemma put_pages_foreign d p user pageId title content :
  pages_wf d → p ∈ pages d → claims_id user ≠ page_userId p →
  integer_of_text pageId = Some (page_id p) →
  put_pages pageId title content user d =
    (if js_not title then json 400 (Message "Title is required.")
     else json 404 (Message
            "Page not found or you don't have permission to edit it."), d).
Proof.
  intros Hwf Hp Howner Hid. unfold put_pages.
  destruct (js_not title); [done|]. unfold update_page.
  assert (Forall (λ q, ¬ matches pageId (claims_id user) q) (pages d)) as Hno
    by (eapply foreign_unselected; done).
  destruct (filter_unselected _ _ _ Hno) as [-> _].
  rewrite set_fields_unselected by done. simpl. by rewrite db_eta.
Qed.

Lemma delete_pages_foreign d p user pageId :
  pages_wf d → p ∈ pages d → claims_id user ≠ page_userId p →
  integer_of_text pageId = Some (page_id p) →
  delete_pages pageId user d =
    (json 404 (Message
       "Page not found or you don't have permission to delete it."), d).
Proof.
  intros Hwf Hp Howner Hid. unfold delete_pages, delete_page.
  assert (Forall (λ q, ¬ matches pageId (claims_id user) q) (pages d)) as Hno
    by (eapply foreign_unselected; done).
  destruct (filter_unselected _ _ _ Hno) as [-> ->]. simpl.
  by rewrite db_eta.
Qed.

End Routes.

(** ** Credentials *)

Section Credentials.
Context `{Jwt, Bcrypt, Sqlite}.

Lemma get_user_none email d :
  (∀ u, u ∈ users d → user_email u ≠ email) →
  get_user email d = Done None.
Proof.
  intros Hno. unfold get_user. f_equal.
  destruct (filter _ (users d)) as [|u l] eqn:Hf; [done|].
  assert (u ∈ filter (λ u, user_email u = email) (users d)) as Hu
    by (rewrite Hf; apply list_elem_of_here).
  apply list_elem_of_filter in Hu as [Hu1 Hu2]. by destruct (Hno u).
Qed.

Lemma get_user_some email d u :
  get_user email d = Done (Some u) → u ∈ users d ∧ user_email u = email.
Proof.
  unfold get_user. intros [= Hhead].
  destruct (filter _ (users d)) as [|u' l] eqn:Hf; [done|].
  injection Hhead as ->.
  assert (u ∈ filter (λ u, user_email u = email) (users d)) as Hu
    by (rewrite Hf; apply list_elem_of_here).
  apply list_elem_of_filter in Hu as [Hu1 Hu2]. done.
Qed.

Lemma get_user_registered email d u :
  u ∈ users d → user_email u = email →
  ∃ u', get_user email d = Done (Some u').
Proof.
  intros Hu He. unfold get_user.
  destruct (filter _ (users d)) as [|u' l] eqn:Hf; [|by exists u'].
  by destruct (filter_nil_not_elem_of _ _ u Hf He).
Qed.

(** A login that lacks a field is refused before the table is read. *)
Lemma post_login_missing now email password d :
  js_not email || js_not password = true →
  post_login now email password d =
    (json 400 (Message "Email and password are required."), d).
Proof. intros Hm. unfold post_login. by rewrite Hm. Qed.

(** Both failures of the credential check answer alike. *)
Lemma post_login_rejects now email password d :
  js_not email = false → js_not password = false →
  (∀ u, u ∈ users d → user_email u = str email →
        bcrypt_compare (str password) (user_password u) = false) →
  post_login now email password d =
    (json 401 (Message "Invalid credentials."), d).
Proof.
  intros He Hp Hwrong. unfold post_login. rewrite He, Hp.
  destruct (get_user (str email) d) as [err|[u|]] eqn:Hg;
    [by unfold get_user in Hg| |done]. simpl.
  apply get_user_some in Hg as [Hu Hue]. by rewrite (Hwrong u Hu Hue).
Qed.

(** A token comes only out of a successful login, for the row found. *)
Lemma post_login_token now email password d token d' :
  post_login now email password d = (json 200 (AccessToken token), d') →
  ∃ u, u ∈ users d ∧ user_email u = str email ∧
       bcrypt_compare (str password) (user_password u) = true ∧
       token = jwt_sign (user_id u) (user_email u) JWT_SECRET now ∧ d' = d.
Proof.
  unfold post_login. destruct (js_not email || js_not password); [done|].
  destruct (get_user (str email) d) as [err|[u|]] eqn:Hg;
    [by unfold get_user in Hg| |done].
  apply get_user_some in Hg as [Hu Hue].
  destruct (bcrypt_compare _ _) eqn:Hc; simpl; [|done].
  intros [= <- <-]. by exists u.
Qed.

Lemma bearer_token_signed id email now0 :
  bearer_token (Some ("Bearer " +:+ jwt_sign id email JWT_SECRET now0)) =
  Some (jwt_sign id email JWT_SECRET now0).
Proof.
  apply (split_space_scheme_token "Bearer"); [done|].
  apply jws_sign_compact.
Qed.

(** Registration only ever appends to [users]. *)
Lemma post_register_created salt email password d r d' :
  post_register salt email password d = (r, d') → status r = 201 →
  js_not email = false ∧
  ∃ u, user_email u = str email ∧ users d' = (users d ++ [u])%list.
Proof.
  unfold post_register. destruct (js_not email); [by intros [= <- <-]|].
  destruct (js_not password); [by intros [= <- <-]|]. simpl.
  unfold insert_user. case_bool_decide; [by intros [= <- <-]|].
  intros [= <- <-] _. split; [done|]. by eexists (mkUser _ _ _).
Qed.

Lemma post_register_taken salt email password d u :
  u ∈ users d → user_email u = str email → js_not email = false →
  post_register salt email password d =
    (if js_not password
     then json 400 (Message "Email and password are required.")
     else json 409 (Message "Email already in use."), d).
Proof.
  intros Hu Hue He. unfold post_register. rewrite He.
  destruct (js_not password); [done|]. simpl.
  unfold insert_user. rewrite bool_decide_eq_true_2; [done|].
  apply list.Exists_exists. by exists u.
Qed.

Lemma app_users e req d u : u ∈ users d → u ∈ users (app e req d).2.
Proof.
  intros Hu. destruct req as [em pw|em pw|h|h t c|h i t c|h i]; simpl.
  - unfold post_register. destruct (_ || _); [done|].
    unfold insert_user. case_bool_decide; [done|]. simpl.
    apply elem_of_app. by left.
  - unfold post_login. destruct (_ || _); [done|].
    destruct (get_user _ d) as [?|[?|]]; [done| |done].
    by destruct (negb _).
  - destruct (authenticateToken_cases (clock e) h get_pages d)
      as [->|[->|(user & _ & ->)]]; done.
  - destruct (authenticateToken_cases (clock e) h (post_pages t c) d)
      as [->|[->|(user & _ & ->)]]; [done..|].
    unfold post_pages. by destruct (js_not t).
  - destruct (authenticateToken_cases (clock e) h (put_pages i t c) d)
      as [->|[->|(user & _ & ->)]]; [done..|].
    unfold put_pages. destruct (js_not t); [done|]. simpl.
    by case_bool_decide.
  - destruct (authenticateToken_cases (clock e) h (delete_pages i) d)
      as [->|[->|(user & _ & ->)]]; [done..|].
    unfold delete_pages. simpl. by case_bool_decide.
Qed.

Lemma run_users calls d u : u ∈ users d → u ∈ users (run d calls).
Proof.
  revert d. induction calls as [|[e req] calls IH]; intros d Hu; [done|].
  simpl. by apply IH, app_users.
Qed.

End Credentials.

(** ** Pages *)

Section Pages.
Context `{Jwt, Bcrypt, Sqlite}.

Lemma or_empty_present s : or_empty (Some s) = s.
Proof. by destruct s. Qed.

Lemma js_not_present s : s ≠ "" → js_not (Some s) = false.
Proof. by destruct s. Qed.

Lemma post_pages_eq title content user d :
  post_pages title content user d =
    if js_not title then (json 400 (Message "Title is required."), d)
    else
      (json 201 (PageCreated (pages_seq d + 1) (str title) content
                             (claims_id user)),
       mkDb (users d) (users_seq d)
            (pages d ++ [mkPage (pages_seq d + 1) (str title)
                                (Some (or_empty content)) (claims_id user)])
            (pages_seq d + 1)).
Proof. unfold post_pages. by destruct (js_not title). Qed.

Lemma put_pages_eq pageId title content user d :
  put_pages pageId title content user d =
    if js_not title then (json 400 (Message "Title is required."), d)
    else
      (if bool_decide
            (length (filter (matches pageId (claims_id user)) (pages d)) = 0%nat)
       then json 404 (Message
              "Page not found or you don't have permission to edit it.")
       else json 200 (Message "Page updated successfully."),
       mkDb (users d) (users_seq d)
            (set_fields (str title) content pageId (claims_id user) <$> pages d)
            (pages_seq d)).
Proof.
  unfold put_pages. destruct (js_not title); [done|]. simpl.
  by case_bool_decide.
Qed.

Lemma delete_pages_eq pageId user d :
  delete_pages pageId user d =
    (if bool_decide
          (length (filter (matches pageId (claims_id user)) (pages d)) = 0%nat)
     then json 404 (Message
            "Page not found or you don't have permission to delete it.")
     else mkResponse 204 Empty,
     mkDb (users d) (users_seq d)
          (filter (λ p, ¬ matches pageId (claims_id user) p) (pages d))
          (pages_seq d)).
Proof. unfold delete_pages. simpl. by case_bool_decide. Qed.

Lemma get_pages_eq user d :
  get_pages user d =
    (json 200 (Rows (row_of_page <$>
                       filter (λ p, page_userId p = claims_id user) (pages d))),
     d).
Proof. done. Qed.

Lemma app_pages_step e req d : pages_step e req d (app e req d).2.
Proof.
  destruct req as [em pw|em pw|h|h t c|h i t c|h i]; simpl.
  - apply step_kept; unfold post_register; destruct (_ || _); try done;
      unfold insert_user; by case_bool_decide.
  - apply step_kept; unfold post_login; destruct (_ || _); try done;
      (destruct (get_user _ d) as [?|[?|]]; [done| |done]);
      by destruct (negb _).
  - destruct (authenticateToken_cases (clock e) h get_pages d)
      as [->|[->|(user & _ & ->)]]; by apply step_kept.
  - destruct (authenticateToken_cases (clock e) h (post_pages t c) d)
      as [->|[->|(user & Hu & ->)]]; [by apply step_kept..|].
    rewrite post_pages_eq. destruct (js_not t) eqn:Ht; [by apply step_kept|].
    by eapply step_created.
  - destruct (authenticateToken_cases (clock e) h (put_pages i t c) d)
      as [->|[->|(user & Hu & ->)]]; [by apply step_kept..|].
    rewrite put_pages_eq. destruct (js_not t) eqn:Ht; [by apply step_kept|].
    by eapply step_updated.
  - destruct (authenticateToken_cases (clock e) h (delete_pages i) d)
      as [->|[->|(user & Hu & ->)]]; [by apply step_kept..|].
    rewrite delete_pages_eq. by eapply step_deleted.
Qed.

Lemma pages_wf_ext d d' :
  pages d' = pages d → pages_seq d' = pages_seq d → pages_wf d → pages_wf d'.
Proof. unfold pages_wf. by intros -> ->. Qed.

Lemma app_pages_wf e req d : pages_wf d → pages_wf (app e req d).2.
Proof.
  intros Hwf.
  destruct (app_pages_step e req d)
    as [Hp Hs|h t c u _ _ _ Hp Hs|h i t c u _ _ _ Hp Hs|h i u _ _ Hp Hs].
  - by eapply pages_wf_ext.
  - eapply pages_wf_ext, (pages_wf_insert d _ _ _ Hwf); done.
  - eapply pages_wf_ext, (pages_wf_update d _ _ _ _ Hwf); done.
  - eapply pages_wf_ext, (pages_wf_delete d _ _ Hwf); done.
Qed.

Lemma run_pages_wf calls d : pages_wf d → pages_wf (run d calls).
Proof.
  revert d. induction calls as [|[e req] calls IH]; intros d Hwf; [done|].
  simpl. by apply IH, app_pages_wf.
Qed.

(** Every table the server builds from an empty database is well formed. *)
Lemma reachable_pages_wf calls : pages_wf (run empty_db calls).
Proof. apply run_pages_wf, pages_wf_empty. Qed.

(** Every row after a request is an old row under the same id and owner, or
    a row created past the old sequence. *)
Lemma app_pages_origin e req d p' :
  p' ∈ pages (app e req d).2 →
  pages_seq d ≤ pages_seq (app e req d).2 ∧
  ((∃ p, p ∈ pages d ∧ page_id p = page_id p' ∧
         page_userId p = page_userId p') ∨
   pages_seq d < page_id p').
Proof.
  destruct (app_pages_step e req d)
    as [Hp Hs|h t c u _ _ _ Hp Hs|h i t c u _ _ _ Hp Hs|h i u _ _ Hp Hs];
    rewrite Hp, Hs; intros Hin; (split; [lia|]).
  - left. by exists p'.
  - apply elem_of_app in Hin as [Hin|Hin]; [left; by exists p'|].
    apply list_elem_of_singleton in Hin as ->. right. simpl. lia.
  - apply list_elem_of_fmap in Hin as (p & -> & Hin). left. exists p.
    by rewrite set_fields_id, set_fields_userId.
  - apply list_elem_of_filter in Hin as [_ Hin]. left. by exists p'.
Qed.

Lemma run_pages_origin calls d p' :
  p' ∈ pages (run d calls) →
  pages_seq d ≤ pages_seq (run d calls) ∧
  ((∃ p, p ∈ pages d ∧ page_id p = page_id p' ∧
         page_userId p = page_userId p') ∨
   pages_seq d < page_id p').
Proof.
  revert d. induction calls as [|[e req] calls IH]; intros d Hin.
  - split; [done|]. left. by exists p'.
  - simpl in *. destruct (IH _ Hin) as [Hseq [(q & Hq & Hid & Ho)|Hnew]].
    + destruct (app_pages_origin e req d q Hq)
        as [Hseq' [(p & Hp & Hid' & Ho')|Hnew]].
      * split; [lia|]. left. exists p. split; [done|]. split; congruence.
      * split; [lia|]. right. lia.
    + assert (pages_seq d ≤ pages_seq (app e req d).2).
      { destruct (app_pages_step e req d)
          as [_ Hs|? ? ? ? _ _ _ _ Hs|? ? ? ? ? _ _ _ _ Hs|? ? ? _ _ _ Hs];
          lia. }
      split; [lia|]. right. lia.
Qed.

(** The owner recorded under an id never changes. *)
Lemma run_owner_fixed calls d p p' :
  pages_wf d → p ∈ pages d → p' ∈ pages (run d calls) →
  page_id p' = page_id p → page_userId p' = page_userId p.
Proof.
  intros [Hnd Hle] Hp Hp' Hid.
  destruct (run_pages_origin calls d p' Hp') as [_ [(q & Hq & Hqid & Hqo)|Hnew]].
  - assert (q = p) as -> by (apply (page_id_inj_on (pages d)); congruence).
    done.
  - rewrite list.Forall_forall in Hle. specialize (Hle p Hp). lia.
Qed.

(** One request leaves a row in place unless it is an owner's update or
    deletion that selects it. *)
Lemma app_pages_frame e req d p :
  p ∈ pages d →
  p ∈ pages (app e req d).2 ∨
  (∃ authorization pageId title content user,
      req = PUT_pages authorization pageId title content ∧
      authenticated (clock e) authorization user ∧
      matches pageId (claims_id user) p ∧
      mkPage (page_id p) (str title) content (page_userId p)
        ∈ pages (app e req d).2) ∨
  (∃ authorization pageId user,
      req = DELETE_pages authorization pageId ∧
      authenticated (clock e) authorization user ∧
      matches pageId (claims_id user) p).
Proof.
  intros Hin.
  destruct (app_pages_step e req d)
    as [Hp Hs|h t c u _ _ _ Hp Hs|h i t c u Hreq Hu _ Hp Hs|h i u Hreq Hu Hp Hs];
    rewrite Hp.
  - by left.
  - left. apply elem_of_app. by left.
  - destruct (decide (matches i (claims_id u) p)) as [Hm|Hm].
    + right. left. exists h, i, t, c, u. do 3 (split; [done|]).
      apply list_elem_of_fmap. exists p. split; [|done].
      unfold set_fields. by rewrite decide_True.
    + left. apply list_elem_of_fmap. exists p. split; [|done].
      unfold set_fields. by rewrite decide_False.
  - destruct (decide (matches i (claims_id u) p)) as [Hm|Hm].
    + right. right. by exists h, i, u.
    + left. by apply list_elem_of_filter.
Qed.

End Pages.

(** * The specification's claims *)

Section Claims.
Context `{Jwt, Bcrypt, Sqlite}.

(** C1.  Ownership isolation: in a well-formed page table, a request
    authenticated as a principal other than a page's owner never sees the
    page in its listing; its update of that page's id, sent with a title,
    is answered 404, and so is its deletion; and the database, hence the
    page, is unchanged.  An update sent without a title is a request with
    a missing field: the validation that comes before the write answers it
    400, and the page is unchanged all the same. *)
Theorem ownership_isolation (d : db) (p : page) (e : env)
    (authorization : option string) (user : claims) :
  pages_wf d → p ∈ pages d →
  authenticated (clock e) authorization user →
  claims_id user ≠ page_userId p →
  (∃ rows, app e (GET_pages authorization) d = (json 200 (Rows rows), d) ∧
           ∀ r, r ∈ rows → row_id r ≠ page_id p) ∧
  (∀ pageId title content,
      integer_of_text pageId = Some (page_id p) →
      app e (PUT_pages authorization pageId title content) d =
        (if js_not title then json 400 (Message "Title is required.")
         else json 404 (Message
                "Page not found or you don't have permission to edit it."),
         d)) ∧
  (∀ pageId,
      integer_of_text pageId = Some (page_id p) →
      app e (DELETE_pages authorization pageId) d =
        (json 404 (Message
           "Page not found or you don't have permission to delete it."), d)).
Proof.
  intros Hwf Hp Hauth Howner. simpl.
  rewrite !(authenticateToken_admits _ _ user) by done.
  split; [|split].
  - eexists. split; [apply get_pages_eq|].
    eapply get_pages_foreign; [done..|]. apply get_pages_eq.
  - intros pageId title content Hid.
    rewrite (authenticateToken_admits _ _ user) by done.
    by eapply put_pages_foreign.
  - intros pageId Hid.
    rewrite (authenticateToken_admits _ _ user) by done.
    by eapply delete_pages_foreign.
Qed.

(** C2.  A login that carries both fields answers 401 with the message
    "Invalid credentials." and leaves the database alone, both when no
    user has the email and when the user found has a hash the password
    does not match: the two answers are the same value. *)
Theorem login_failures_indistinguishable (now : Z)
    (email password : option string) (d : db) :
  js_not email = false → js_not password = false →
  ((∀ u, u ∈ users d → user_email u ≠ str email) ∨
   (∃ u, get_user (str email) d = Done (Some u) ∧
         bcrypt_compare (str password) (user_password u) = false)) →
  post_login now email password d =
    (json 401 (Message "Invalid credentials."), d).
Proof.
  intros He Hp [Hnone|(u & Hg & Hc)]; unfold post_login; rewrite He, Hp.
  - by rewrite get_user_none.
  - rewrite Hg. simpl. by rewrite Hc.
Qed.

(** C3 (as the code has it).  The middleware answers 401, with the
    database untouched, exactly when it finds no token: the header is
    absent, or is a non-empty string without a blank.  Otherwise the token
    is the second blank-separated piece of the header (the empty string
    for an empty header), whatever the first piece is; a token that fails
    verification is answered 403 with the database untouched, and one
    that verifies has its payload passed on to the route. *)
Theorem guard_outcomes (now : Z) (authHeader : option string)
    (next : claims → db → response * db) (d : db) :
  (bearer_token authHeader = None ↔
     authHeader = None ∨
     ∃ h, authHeader = Some h ∧ h ≠ "" ∧ has_space h = false) ∧
  (bearer_token authHeader = None →
     authenticateToken now authHeader next d = (sendStatus 401, d)) ∧
  (∀ token err,
     bearer_token authHeader = Some token →
     jwt_verify token JWT_SECRET now = Err err →
     authenticateToken now authHeader next d = (sendStatus 403, d)) ∧
  (∀ token user,
     bearer_token authHeader = Some token →
     jwt_verify token JWT_SECRET now = Done user →
     authenticateToken now authHeader next d = next user d) ∧
  (∀ h token, authHeader = Some h →
     split_space h !! 1%nat = Some token → bearer_token authHeader = Some token) ∧
  bearer_token (Some "") = Some "".
Proof.
  split; [apply bearer_token_none|]. split; [|split; [|split; [|split]]].
  - intros Hnone. unfold authenticateToken. by rewrite Hnone.
  - intros token err. apply authenticateToken_refused.
  - intros token user. apply authenticateToken_verified.
  - intros h token ->. apply bearer_token_second.
  - reflexivity.
Qed.

(** C4.  The token a successful login at time [now0] returns belongs to a
    user row with the login's email; presented as [Bearer <token>] at any
    time from [now0 + 3600] on it is answered 403, and at any earlier time
    the route receives the row's id and email, as signed at issuance. *)
Theorem token_lifetime (now0 : Z) (email password : option string)
    (d d' : db) (token : string) :
  post_login now0 email password d = (json 200 (AccessToken token), d') →
  ∃ u, u ∈ users d ∧ user_email u = str email ∧
    ∀ now next d0,
      (now0 + 3600 ≤ now →
         authenticateToken now (Some ("Bearer " +:+ token)) next d0 =
           (sendStatus 403, d0)) ∧
      (now < now0 + 3600 →
         authenticateToken now (Some ("Bearer " +:+ token)) next d0 =
           next (mkClaims (user_id u) (user_email u) now0 (now0 + 3600)) d0).
Proof.
  intros (u & Hu & Hue & _ & -> & _)%post_login_token.
  exists u. split; [done|]. split; [done|]. intros now next d0.
  pose proof (bearer_token_signed (user_id u) (user_email u) now0) as Ht.
  pose proof (jwt_verify_sign (user_id u) (user_email u) now0 now) as Hv.
  split; intros Hnow.
  - rewrite bool_decide_eq_true_2 in Hv by done.
    by eapply authenticateToken_refused.
  - rewrite bool_decide_eq_false_2 in Hv by lia.
    by eapply authenticateToken_verified.
Qed.

(** C5.  Once a registration of an email has answered 201, every later
    registration of the same email with a password, whatever the two
    passwords are and after any requests whatever, is answered 409 "Email
    already in use.", never 500, and stores nothing.  A later registration
    without a password is a request with a missing field: it is answered
    400 and stores nothing either. *)
Theorem register_duplicate_email (salt salt' : string)
    (email password password' : option string) (d d1 : db) (r : response)
    (calls : list (env * request)) :
  post_register salt email password d = (r, d1) → status r = 201 →
  post_register salt' email password' (run d1 calls) =
    (if js_not password'
     then json 400 (Message "Email and password are required.")
     else json 409 (Message "Email already in use."),
     run d1 calls).
Proof.
  intros Hreg Hok.
  destruct (post_register_created _ _ _ _ _ _ Hreg Hok) as [He (u & Hue & Hus)].
  apply (post_register_taken _ _ _ _ u); [|done..].
  apply run_users. rewrite Hus. apply elem_of_app. right.
  apply list_elem_of_here.
Qed.

End Claims.

Section PageClaims.
Context `{Jwt, Bcrypt, Sqlite}.

Lemma app_as_principal P e authorization next d :
  as_principal P e authorization →
  ∃ user, claims_id user = P ∧
          authenticateToken (clock e) authorization next d = next user d.
Proof.
  intros (user & Hu & Hid). exists user. split; [done|].
  by apply authenticateToken_admits.
Qed.

Lemma app_GET_pages P e h d :
  as_principal P e h →
  app e (GET_pages h) d =
    (json 200 (Rows (row_of_page <$>
                       filter (λ p, page_userId p = P) (pages d))), d).
Proof.
  intros A. simpl. destruct (app_as_principal P e h get_pages d A)
    as (u & <- & ->). apply get_pages_eq.
Qed.

Lemma app_POST_pages P e h title content d :
  as_principal P e h → title ≠ "" →
  app e (POST_pages h (Some title) (Some content)) d =
    (json 201 (PageCreated (pages_seq d + 1) title (Some content) P),
     mkDb (users d) (users_seq d)
          (pages d ++ [mkPage (pages_seq d + 1) title (Some content) P])
          (pages_seq d + 1)).
Proof.
  intros A Ht. simpl.
  destruct (app_as_principal P e h
              (post_pages (Some title) (Some content)) d A) as (u & <- & ->).
  by rewrite post_pages_eq, js_not_present, or_empty_present.
Qed.

Lemma app_PUT_pages P e h pageId title content d p :
  as_principal P e h → js_not title = false →
  p ∈ pages d → matches pageId P p →
  app e (PUT_pages h pageId title content) d =
    (json 200 (Message "Page updated successfully."),
     mkDb (users d) (users_seq d)
          (set_fields (str title) content pageId P <$> pages d) (pages_seq d)).
Proof.
  intros A Ht Hp Hm. simpl.
  destruct (app_as_principal P e h (put_pages pageId title content) d A)
    as (u & <- & ->).
  rewrite put_pages_eq, Ht.
  by rewrite bool_decide_eq_false_2 by by eapply filter_selected.
Qed.

Lemma app_DELETE_pages P e h pageId d p :
  as_principal P e h → p ∈ pages d → matches pageId P p →
  app e (DELETE_pages h pageId) d =
    (mkResponse 204 Empty,
     mkDb (users d) (users_seq d)
          (filter (λ q, ¬ matches pageId P q) (pages d)) (pages_seq d)).
Proof.
  intros A Hp Hm. simpl.
  destruct (app_as_principal P e h (delete_pages pageId) d A)
    as (u & <- & ->).
  rewrite delete_pages_eq.
  by rewrite bool_decide_eq_false_2 by by eapply filter_selected.
Qed.

(** C6.  The round trip of a principal [P]: a page created with a title
    and a content is answered 201 with the next id and is listed for [P]
    with those fields; after an update of that id with a second title and
    content, every row of [P]'s listing under the id carries the second
    fields, and there is one; after the deletion of that id, no row of
    [P]'s listing has the id. *)
Theorem crud_round_trip (P : Z) (d : db)
    (title content title2 content2 pageId : string)
    (e1 e2 e3 e4 e5 e6 : env) (h1 h2 h3 h4 h5 h6 : option string) :
  as_principal P e1 h1 → as_principal P e2 h2 → as_principal P e3 h3 →
  as_principal P e4 h4 → as_principal P e5 h5 → as_principal P e6 h6 →
  title ≠ "" → title2 ≠ "" →
  integer_of_text pageId = Some (pages_seq d + 1) →
  ∃ id d1 d2 d3 rows1 rows2 rows3,
    id = pages_seq d + 1 ∧
    app e1 (POST_pages h1 (Some title) (Some content)) d =
      (json 201 (PageCreated id title (Some content) P), d1) ∧
    app e2 (GET_pages h2) d1 = (json 200 (Rows rows1), d1) ∧
    mkRow id title (Some content) ∈ rows1 ∧
    app e3 (PUT_pages h3 pageId (Some title2) (Some content2)) d1 =
      (json 200 (Message "Page updated successfully."), d2) ∧
    app e4 (GET_pages h4) d2 = (json 200 (Rows rows2), d2) ∧
    mkRow id title2 (Some content2) ∈ rows2 ∧
    (∀ r, r ∈ rows2 → row_id r = id → r = mkRow id title2 (Some content2)) ∧
    app e5 (DELETE_pages h5 pageId) d2 = (mkResponse 204 Empty, d3) ∧
    app e6 (GET_pages h6) d3 = (json 200 (Rows rows3), d3) ∧
    (∀ r, r ∈ rows3 → row_id r ≠ id).
Proof.
  intros A1 A2 A3 A4 A5 A6 Ht Ht2 Hid.
  set (id := pages_seq d + 1) in *.
  set (new := mkPage id title (Some content) P).
  set (new2 := mkPage id title2 (Some content2) P).
  set (d1 := mkDb (users d) (users_seq d) (pages d ++ [new]) id).
  set (d2 := mkDb (users d1) (users_seq d1)
               (set_fields title2 (Some content2) pageId P <$> pages d1)
               (pages_seq d1)).
  set (d3 := mkDb (users d2) (users_seq d2)
               (filter (λ q, ¬ matches pageId P q) (pages d2)) (pages_seq d2)).
  assert (matches pageId P new) as Hnew by done.
  assert (matches pageId P new2) as Hnew2 by done.
  assert (new ∈ pages d1) as Hin
    by (apply elem_of_app; right; apply list_elem_of_here).
  assert (new2 ∈ pages d2) as Hin2.
  { apply list_elem_of_fmap. exists new. split; [|done].
    unfold set_fields. by rewrite decide_True. }
  exists id, d1, d2, d3.
  exists (row_of_page <$> filter (λ p, page_userId p = P) (pages d1)).
  exists (row_of_page <$> filter (λ p, page_userId p = P) (pages d2)).
  exists (row_of_page <$> filter (λ p, page_userId p = P) (pages d3)).
  split; [done|].
  split; [by apply app_POST_pages|].
  split; [by apply app_GET_pages|].
  split.
  { apply (list_elem_of_fmap_2 row_of_page _ new).
    by apply list_elem_of_filter. }
  split.
  { apply (app_PUT_pages P e3 h3 pageId (Some title2) (Some content2) d1 new);
      [done|by apply js_not_present|done..]. }
  split; [by apply app_GET_pages|].
  split.
  { apply (list_elem_of_fmap_2 row_of_page _ new2).
    by apply list_elem_of_filter. }
  split.
  { intros r Hr Hrid. apply list_elem_of_fmap in Hr as (q & -> & Hq).
    apply list_elem_of_filter in Hq as [Hqo Hq].
    apply list_elem_of_fmap in Hq as (q0 & -> & Hq0).
    rewrite set_fields_userId in Hqo. unfold row_of_page in Hrid.
    simpl in Hrid. rewrite set_fields_id in Hrid.
    unfold set_fields. rewrite decide_True; [|split; [congruence|done]].
    unfold row_of_page. simpl. by rewrite Hrid. }
  split; [by apply (app_DELETE_pages P e5 h5 pageId d2 new2)|].
  split; [by apply app_GET_pages|].
  intros r Hr Hrid. apply list_elem_of_fmap in Hr as (q & -> & Hq).
  apply list_elem_of_filter in Hq as [Hqo Hq].
  apply list_elem_of_filter in Hq as [Hno Hq].
  apply Hno. split; [|done]. unfold row_of_page in Hrid. simpl in Hrid.
  congruence.
Qed.

(** C7 (as the code has it).  An authenticated creation without a title
    (absent or empty) is answered 400 and stores nothing.  With a title it
    is answered 201 with the next id, the title and the content exactly as
    the request carried them (no content when the request had none) and
    the authenticated id as [userId]; the row stored has that id, title
    and owner, and for content the request's, or the empty string when the
    request had none. *)
Theorem create_page_response (e : env) (authorization : option string)
    (user : claims) (title content : option string) (d : db) :
  authenticated (clock e) authorization user →
  app e (POST_pages authorization title content) d =
    if js_not title then (json 400 (Message "Title is required."), d)
    else
      (json 201 (PageCreated (pages_seq d + 1) (str title) content
                             (claims_id user)),
       mkDb (users d) (users_seq d)
            (pages d ++ [mkPage (pages_seq d + 1) (str title)
                           (Some (match content with
                                  | Some c => c
                                  | None => ""
                                  end))
                           (claims_id user)])
            (pages_seq d + 1)).
Proof.
  intros Hauth. simpl. rewrite (authenticateToken_admits _ _ user) by done.
  rewrite post_pages_eq. destruct (js_not title); [done|].
  do 5 f_equal. by destruct content as [[|]|].
Qed.

End PageClaims.

Section FrameClaims.
Context `{Jwt, Bcrypt, Sqlite}.

Lemma app_POST_pages_created e authorization user title content d r d' :
  authenticated (clock e) authorization user →
  app e (POST_pages authorization title content) d = (r, d') →
  status r = 201 →
  payload r = PageCreated (pages_seq d + 1) (str title) content (claims_id user) ∧
  ∃ p, p ∈ pages d' ∧ page_id p = pages_seq d + 1 ∧
       page_userId p = claims_id user.
Proof.
  intros Hauth. simpl. rewrite (authenticateToken_admits _ _ user) by done.
  rewrite post_pages_eq. destruct (js_not title); [by intros [= <- <-]|].
  intros [= <- <-] _. split; [done|]. eexists (mkPage _ _ _ _).
  split; [|done]. simpl. apply elem_of_app. right. apply list_elem_of_here.
Qed.

(** C8.  The owner of a page is the identity the middleware passed to the
    creation and stays so: (1) the row a creation stores is owned by the
    authenticated id, and whatever requests follow, a row under that id is
    owned by it; (2) one request leaves each row as it is, or is an update,
    by a request authenticated as its owner and naming its id, that
    rewrites its title and content and keeps its id and owner, or is such
    a deletion; (3) over any sequence of requests the owner recorded under
    an id does not change. *)
Theorem owner_fixed_and_frame :
  (∀ e authorization user title content d r d' calls p',
      pages_wf d →
      authenticated (clock e) authorization user →
      app e (POST_pages authorization title content) d = (r, d') →
      status r = 201 →
      payload r = PageCreated (pages_seq d + 1) (str title) content
                              (claims_id user) ∧
      (∃ p, p ∈ pages d' ∧ page_id p = pages_seq d + 1 ∧
            page_userId p = claims_id user) ∧
      (p' ∈ pages (run d' calls) → page_id p' = pages_seq d + 1 →
       page_userId p' = claims_id user)) ∧
  (∀ e req d p,
      p ∈ pages d →
      p ∈ pages (app e req d).2 ∨
      (∃ authorization pageId title content user,
          req = PUT_pages authorization pageId title content ∧
          authenticated (clock e) authorization user ∧
          matches pageId (claims_id user) p ∧
          mkPage (page_id p) (str title) content (page_userId p)
            ∈ pages (app e req d).2) ∨
      (∃ authorization pageId user,
          req = DELETE_pages authorization pageId ∧
          authenticated (clock e) authorization user ∧
          matches pageId (claims_id user) p)) ∧
  (∀ d calls p p',
      pages_wf d → p ∈ pages d → p' ∈ pages (run d calls) →
      page_id p' = page_id p → page_userId p' = page_userId p).
Proof.
  split; [|split].
  - intros e h user title content d r d' calls p' Hwf Hauth Happ Hok.
    destruct (app_POST_pages_created _ _ _ _ _ _ _ _ Hauth Happ Hok)
      as [Hbody (p & Hp & Hpid & Hpo)].
    split; [done|]. split; [by exists p|]. intros Hp' Hid. rewrite <- Hpo.
    apply (run_owner_fixed calls d' p p'); [|done|done|congruence].
    pose proof (app_pages_wf e (POST_pages h title content) d Hwf) as Hwf'.
    by rewrite Happ in Hwf'.
  - intros e req d p. apply app_pages_frame.
  - intros d calls p p'. apply run_owner_fixed.
Qed.

(** C9.  The middleware does not look at the first word of the header:
    whenever the second blank-separated piece of the header verifies, the
    route runs with that token's payload; in particular under any scheme
    word, [Bearer] or not. *)
Theorem guard_ignores_scheme (now : Z) (token : string) (user : claims)
    (next : claims → db → response * db) (d : db) :
  jwt_verify token JWT_SECRET now = Done user →
  (∀ h, split_space h !! 1%nat = Some token →
        authenticateToken now (Some h) next d = next user d) ∧
  (∀ scheme, has_space scheme = false → has_space token = false →
        authenticateToken now (Some (scheme +:+ String " " token)) next d =
          next user d).
Proof.
  intros Hv. split.
  - intros h Hh. eapply authenticateToken_verified; [|done].
    by apply bearer_token_second.
  - intros scheme Hs Ht. eapply authenticateToken_verified; [|done].
    apply bearer_token_second. by apply split_space_scheme_token.
Qed.

(** C10.  An update is a full overwrite: an authenticated update with a
    title and no content, selecting a row, is answered 200 and writes the
    title and NULL into every selected row, whatever content the row had;
    in a well-formed table the overwritten row is the only one left under
    its id. *)
Theorem update_without_content_stores_null (e : env)
    (authorization : option string) (user : claims) (pageId : string)
    (title : option string) (d : db) (p : page) :
  authenticated (clock e) authorization user → js_not title = false →
  p ∈ pages d → matches pageId (claims_id user) p →
  ∃ d',
    app e (PUT_pages authorization pageId title None) d =
      (json 200 (Message "Page updated successfully."), d') ∧
    mkPage (page_id p) (str title) None (page_userId p) ∈ pages d' ∧
    (∀ q, q ∈ pages d' → matches pageId (claims_id user) q →
          page_title q = str title ∧ page_content q = None) ∧
    (pages_wf d → ∀ q, q ∈ pages d' → page_id q = page_id p →
          q = mkPage (page_id p) (str title) None (page_userId p)).
Proof.
  intros Hauth Ht Hp Hm. eexists. split.
  { apply (app_PUT_pages (claims_id user) e authorization pageId title None d p);
      [by exists user|done..]. }
  simpl. split; [|split].
  - apply list_elem_of_fmap. exists p. split; [|done].
    unfold set_fields. by rewrite decide_True.
  - intros q (q0 & -> & Hq0)%list_elem_of_fmap [Hqid Hqo].
    rewrite set_fields_id in Hqid. rewrite set_fields_userId in Hqo.
    unfold set_fields. by rewrite decide_True.
  - intros [Hnd _] q (q0 & -> & Hq0)%list_elem_of_fmap Hqid.
    rewrite set_fields_id in Hqid.
    assert (q0 = p) as -> by (apply (page_id_inj_on (pages d)); done).
    unfold set_fields. by rewrite decide_True.
Qed.

End FrameClaims.

(** * Further properties of the server *)

(** ** The users table *)

Section Users.
Context `{Jwt, Bcrypt, Sqlite}.

Lemma app_users_append e req d :
  (users (app e req d).2 = users d ∧ users_seq (app e req d).2 = users_seq d) ∨
  ∃ email password,
    req = POST_register email password ∧
    js_not email = false ∧ js_not password = false ∧
    (∀ u, u ∈ users d → user_email u ≠ str email) ∧
    users (app e req d).2 =
      (users d ++ [mkUser (users_seq d + 1) (str email)
                     (bcrypt_hash (str password) 10 (entropy e))])%list ∧
    users_seq (app e req d).2 = users_seq d + 1.
Proof.
  destruct req as [em pw|em pw|h|h t c|h i t c|h i]; simpl.
  - unfold post_register.
    destruct (js_not em) eqn:Hem; [by left|].
    destruct (js_not pw) eqn:Hpw; [by left|]. simpl.
    unfold insert_user. case_bool_decide as Hex; [by left|].
    right. exists em, pw. do 3 (split; [done|]). split; [|done].
    intros u Hu Hue. apply Hex, list.Exists_exists. by exists u.
  - left. unfold post_login. destruct (_ || _); [done|].
    destruct (get_user _ d) as [?|[?|]]; [done| |done].
    by destruct (negb _).
  - left. destruct (authenticateToken_cases (clock e) h get_pages d)
      as [->|[->|(user & _ & ->)]]; done.
  - left. destruct (authenticateToken_cases (clock e) h (post_pages t c) d)
      as [->|[->|(user & _ & ->)]]; [done..|].
    rewrite post_pages_eq. by destruct (js_not t).
  - left. destruct (authenticateToken_cases (clock e) h (put_pages i t c) d)
      as [->|[->|(user & _ & ->)]]; [done..|].
    rewrite put_pages_eq. by destruct (js_not t).
  - left. destruct (authenticateToken_cases (clock e) h (delete_pages i) d)
      as [->|[->|(user & _ & ->)]]; [done..|].
    by rewrite delete_pages_eq.
Qed.

Lemma run_users_append calls d :
  ∃ more, users (run d calls) = (users d ++ more)%list.
Proof.
  revert d. induction calls as [|[e req] calls IH]; intros d.
  - exists []. by rewrite app_nil_r.
  - simpl. destruct (IH (app e req d).2) as [more ->].
    destruct (app_users_append e req d)
      as [[-> _]|(em & pw & _ & _ & _ & _ & -> & _)].
    + by exists more.
    + eexists. by rewrite <- app_assoc.
Qed.

Lemma get_user_first email (l more : list user) u seq ps pseq :
  (∀ v, v ∈ l → user_email v ≠ email) → user_email u = email →
  get_user email (mkDb (l ++ u :: more) seq ps pseq) = Done (Some u).
Proof.
  intros Hno Hu. unfold get_user. simpl. f_equal.
  rewrite list.filter_app, filter_cons_True by done.
  assert (filter (λ v, user_email v = email) l = []) as ->; [|done].
  destruct (filter _ l) as [|v k] eqn:Hf; [done|].
  assert (v ∈ filter (λ v, user_email v = email) l) as Hv
    by (rewrite Hf; apply list_elem_of_here).
  apply list_elem_of_filter in Hv as [Hv1 Hv2]. by destruct (Hno v).
Qed.

Lemma post_register_row salt email password d r d' :
  post_register salt email password d = (r, d') → status r = 201 →
  js_not email = false ∧ js_not password = false ∧
  (∀ u, u ∈ users d → user_email u ≠ str email) ∧
  r = json 201 (UserCreated "User created successfully." (users_seq d + 1)) ∧
  users d' = (users d ++ [mkUser (users_seq d + 1) (str email)
                            (bcrypt_hash (str password) 10 salt)])%list.
Proof.
  unfold post_register. destruct (js_not email); [by intros [= <- <-]|].
  destruct (js_not password); [by intros [= <- <-]|]. simpl.
  unfold insert_user. case_bool_decide as Hex; [by intros [= <- <-]|].
  intros [= <- <-] _. do 2 (split; [done|]). split; [|done].
  intros u Hu Hue. apply Hex, list.Exists_exists. by exists u.
Qed.

(** X1.  Registration and login compose: once a registration has answered
    201 with an id, a login with the same email and password, at any time
    and after any requests, answers 200 with a token, and until an hour
    after that login the token, sent as [Bearer <token>], lets the request
    through as the registered id and email. *)
Theorem register_then_login (salt : string) (email password : option string)
    (d d1 : db) (r : response) (calls : list (env * request)) (now : Z) :
  post_register salt email password d = (r, d1) → status r = 201 →
  ∃ userId token,
    payload r = UserCreated "User created successfully." userId ∧
    post_login now email password (run d1 calls) =
      (json 200 (AccessToken token), run d1 calls) ∧
    ∀ now' next d0,
      now' < now + 3600 →
      authenticateToken now' (Some ("Bearer " +:+ token)) next d0 =
        next (mkClaims userId (str email) now (now + 3600)) d0.
Proof.
  intros Hreg Hok.
  destruct (post_register_row _ _ _ _ _ _ Hreg Hok)
    as (He & Hp & Hfresh & -> & Hus).
  set (u := mkUser (users_seq d + 1) (str email)
              (bcrypt_hash (str password) 10 salt)) in *.
  exists (users_seq d + 1), (jwt_sign (users_seq d + 1) (str email) JWT_SECRET now).
  split; [done|].
  destruct (run_users_append calls d1) as [more Hmore].
  assert (get_user (str email) (run d1 calls) = Done (Some u)) as Hget.
  { rewrite <- (db_eta (run d1 calls)), Hmore, Hus, <- app_assoc.
    by apply get_user_first. }
  split.
  - unfold post_login. rewrite He, Hp, Hget. simpl.
    by rewrite bcrypt_compare_hash.
  - intros now' next d0 Hnow.
    eapply authenticateToken_verified; [apply bearer_token_signed|].
    rewrite jwt_verify_sign. by rewrite bool_decide_eq_false_2 by lia.
Qed.

(** X2.  The users table stays well formed: whatever requests are served,
    emails stay unique, ids stay unique, and no id exceeds the sequence. *)
Theorem users_wf_run (d : db) (calls : list (env * request)) :
  users_wf d → users_wf (run d calls).
Proof.
  revert d. induction calls as [|[e req] calls IH]; intros d Hwf; [done|].
  simpl. apply IH. destruct Hwf as (Hemails & Hids & Hle). unfold users_wf.
  destruct (app_users_append e req d)
    as [[-> ->]|(em & pw & _ & _ & _ & Hfresh & -> & ->)]; [done|].
  split; [|split].
  - rewrite fmap_app. apply list.NoDup_app. split; [done|]. split.
    + intros x (v & -> & Hv)%list_elem_of_fmap Hx.
      apply list_elem_of_singleton in Hx. by destruct (Hfresh v Hv).
    + apply NoDup_singleton.
  - rewrite fmap_app. apply list.NoDup_app. split; [done|]. split.
    + intros x (v & -> & Hv)%list_elem_of_fmap Hx.
      apply list_elem_of_singleton in Hx. simpl in Hx.
      rewrite list.Forall_forall in Hle. specialize (Hle v Hv). lia.
    + apply NoDup_singleton.
  - apply list.Forall_app. split.
    + eapply list.Forall_impl; [done|]. simpl. intros; lia.
    + apply Forall_singleton. simpl. lia.
Qed.

(** X3.  A registration is answered 201 exactly when it carries an email
    and a password and no user has the email; it then stores one row, under
    the next id, whose hash the password matches. *)
Theorem register_succeeds_iff (salt : string) (email password : option string)
    (d : db) :
  (status (post_register salt email password d).1 = 201 ↔
   js_not email = false ∧ js_not password = false ∧
   ∀ u, u ∈ users d → user_email u ≠ str email) ∧
  (status (post_register salt email password d).1 = 201 →
   ∃ u, users (post_register salt email password d).2 = (users d ++ [u])%list ∧
        user_id u = users_seq d + 1 ∧ user_email u = str email ∧
        bcrypt_compare (str password) (user_password u) = true).
Proof.
  split; [split|].
  - intros Hok.
    destruct (post_register salt email password d) as [r d'] eqn:Hreg.
    destruct (post_register_row _ _ _ _ _ _ Hreg Hok) as (? & ? & ? & _).
    done.
  - intros (He & Hp & Hfresh). unfold post_register. rewrite He, Hp. simpl.
    unfold insert_user. rewrite bool_decide_eq_false_2; [done|].
    intros (u & Hu & Hue)%list.Exists_exists. by destruct (Hfresh u).
  - intros Hok.
    destruct (post_register salt email password d) as [r d'] eqn:Hreg.
    destruct (post_register_row _ _ _ _ _ _ Hreg Hok) as (_ & _ & _ & _ & Hus).
    simpl. rewrite Hus. eexists. split; [done|]. simpl. do 2 (split; [done|]).
    apply bcrypt_compare_hash.
Qed.

(** X4.  A login answers 200 with a token exactly when it carries both
    fields and the first row with its email has a hash the password matches;
    the token is then the one signed for that row's id and email. *)
Theorem login_succeeds_iff (now : Z) (email password : option string) (d : db) :
  (∀ token,
     post_login now email password d = (json 200 (AccessToken token), d) ↔
     js_not email = false ∧ js_not password = false ∧
     ∃ u, get_user (str email) d = Done (Some u) ∧
          bcrypt_compare (str password) (user_password u) = true ∧
          token = jwt_sign (user_id u) (user_email u) JWT_SECRET now) ∧
  (status (post_login now email password d).1 = 200 →
   ∃ token, post_login now email password d = (json 200 (AccessToken token), d)).
Proof.
  split.
  - intros token. unfold post_login. split.
    + destruct (js_not email); [done|]. destruct (js_not password); [done|].
      destruct (get_user (str email) d) as [?|[u|]]; [done| |done].
      destruct (bcrypt_compare _ _) eqn:Hc; simpl; [|done].
      intros [= <-]. do 2 (split; [done|]). by exists u.
    + intros (-> & -> & u & -> & Hc & ->). simpl. by rewrite Hc.
  - unfold post_login. destruct (_ || _); [done|].
    destruct (get_user (str email) d) as [?|[u|]]; [done| |done].
    destruct (negb _); [done|]. intros _. by eexists.
Qed.

End Users.

(** ** The pages table *)

Section PagesExtras.
Context `{Jwt, Bcrypt, Sqlite}.

Lemma unselected_of_count pageId userId (l : list page) :
  length (filter (matches pageId userId) l) = 0%nat →
  Forall (λ p, ¬ matches pageId userId p) l.
Proof.
  intros Hlen%length_zero_iff_nil. apply list.Forall_forall.
  intros p Hp Hm. by apply (filter_nil_not_elem_of _ _ p Hlen Hm).
Qed.

Lemma put_pages_unselected pageId title content user d :
  Forall (λ p, ¬ matches pageId (claims_id user) p) (pages d) →
  put_pages pageId title content user d =
    (if js_not title then json 400 (Message "Title is required.")
     else json 404 (Message
            "Page not found or you don't have permission to edit it."), d).
Proof.
  intros Hno. rewrite put_pages_eq. destruct (js_not title); [done|].
  destruct (filter_unselected _ _ _ Hno) as [-> _].
  rewrite set_fields_unselected by done. simpl. by rewrite db_eta.
Qed.

Lemma delete_pages_unselected pageId user d :
  Forall (λ p, ¬ matches pageId (claims_id user) p) (pages d) →
  delete_pages pageId user d =
    (json 404 (Message
       "Page not found or you don't have permission to delete it."), d).
Proof.
  intros Hno. rewrite delete_pages_eq.
  destruct (filter_unselected _ _ _ Hno) as [-> ->]. simpl. by rewrite db_eta.
Qed.

Lemma matches_set_fields title content pageId userId pageId' userId' p :
  matches pageId' userId' (set_fields title content pageId userId p) ↔
  matches pageId' userId' p.
Proof. unfold matches. by rewrite set_fields_id, set_fields_userId. Qed.

Lemma set_fields_twice title content pageId userId p :
  set_fields title content pageId userId
    (set_fields title content pageId userId p) =
  set_fields title content pageId userId p.
Proof.
  destruct (decide (matches pageId userId p)) as [Hm|Hm].
  - assert (set_fields title content pageId userId p =
            mkPage (page_id p) title content (page_userId p)) as ->
      by (unfold set_fields; by rewrite decide_True).
    unfold set_fields. by rewrite decide_True.
  - assert (set_fields title content pageId userId p = p) as Hp
      by (unfold set_fields; by rewrite decide_False).
    by rewrite !Hp.
Qed.

Lemma count_set_fields title content pageId userId (l : list page) :
  length (filter (matches pageId userId)
            (set_fields title content pageId userId <$> l)) =
  length (filter (matches pageId userId) l).
Proof.
  induction l as [|p l IH]; [done|]. rewrite fmap_cons.
  destruct (decide (matches pageId userId p)) as [Hm|Hm].
  - rewrite !filter_cons_True by by (try apply matches_set_fields).
    simpl. by rewrite IH.
  - rewrite !filter_cons_False by by (try rewrite matches_set_fields).
    done.
Qed.

Lemma app_authenticated_inv e authorization next d r d' :
  authenticateToken (clock e) authorization next d = (r, d') →
  (r = sendStatus 401 ∧ d' = d) ∨ (r = sendStatus 403 ∧ d' = d) ∨
  ∃ user, authenticated (clock e) authorization user ∧ next user d = (r, d').
Proof.
  destruct (authenticateToken_cases (clock e) authorization next d)
    as [->|[->|(user & Hu & ->)]].
  - intros [= <- <-]. by left.
  - intros [= <- <-]. right. by left.
  - intros Hn. right. right. by exists user.
Qed.

Lemma run_pages_seq_mono calls d : pages_seq d ≤ pages_seq (run d calls).
Proof.
  revert d. induction calls as [|[e req] calls IH]; intros d; [done|].
  simpl. specialize (IH (app e req d).2).
  destruct (app_pages_step e req d)
    as [_ Hs|? ? ? ? _ _ _ _ Hs|? ? ? ? ? _ _ _ _ Hs|? ? ? _ _ _ Hs]; lia.
Qed.

(** X5.  Only a successful write changes the database: a request answered
    with a status of 400 or more leaves every table as it was, and so do a
    login and a listing whatever they answer. *)
Theorem effects_only_on_success (e : env) (req : request) (d : db) :
  (400 ≤ status (app e req d).1 → (app e req d).2 = d) ∧
  ((∃ email password, req = POST_login email password) ∨
   (∃ authorization, req = GET_pages authorization) →
   (app e req d).2 = d).
Proof.
  split.
  - destruct req as [em pw|em pw|h|h t c|h i t c|h i]; simpl.
    + unfold post_register. destruct (_ || _); [done|].
      unfold insert_user. case_bool_decide; [done|]. simpl. lia.
    + unfold post_login. destruct (_ || _); [done|].
      destruct (get_user _ d) as [?|[?|]]; [done| |done].
      by destruct (negb _).
    + destruct (authenticateToken_cases (clock e) h get_pages d)
        as [->|[->|(user & _ & ->)]]; done.
    + destruct (authenticateToken_cases (clock e) h (post_pages t c) d)
        as [->|[->|(user & _ & ->)]]; [done..|].
      rewrite post_pages_eq. destruct (js_not t); [done|]. simpl. lia.
    + destruct (authenticateToken_cases (clock e) h (put_pages i t c) d)
        as [->|[->|(user & _ & ->)]]; [done..|].
      rewrite put_pages_eq. destruct (js_not t); [done|].
      case_bool_decide as Hc; simpl; [|lia]. intros _.
      rewrite set_fields_unselected by by apply unselected_of_count.
      apply db_eta.
    + destruct (authenticateToken_cases (clock e) h (delete_pages i) d)
        as [->|[->|(user & _ & ->)]]; [done..|].
      rewrite delete_pages_eq.
      case_bool_decide as Hc; simpl; [|lia]. intros _.
      destruct (filter_unselected _ _ _ (unselected_of_count _ _ _ Hc))
        as [_ ->].
      apply db_eta.
  - intros [(em & pw & ->)|(h & ->)]; simpl.
    + unfold post_login. destruct (_ || _); [done|].
      destruct (get_user _ d) as [?|[?|]]; [done| |done].
      by destruct (negb _).
    + destruct (authenticateToken_cases (clock e) h get_pages d)
        as [->|[->|(user & _ & ->)]]; done.
Qed.

(** X6.  A request that is not let through as the principal [Q] leaves the
    listing of [Q] exactly as it was: its rows, their fields and their
    order. *)
Theorem foreign_requests_keep_listing (e : env) (req : request) (d : db)
    (Q : Z) :
  (∀ authorization, request_authorization req = Some authorization →
                    ¬ as_principal Q e authorization) →
  listing Q (app e req d).2 = listing Q d.
Proof.
  intros Hforeign. unfold listing. f_equal.
  destruct (app_pages_step e req d)
    as [Hp Hs|h t c u Hreq Hu _ Hp Hs|h i t c u Hreq Hu _ Hp Hs|h i u Hreq Hu Hp Hs];
    rewrite Hp; [done|..].
  all: assert (claims_id u ≠ Q) as Hne
    by (intros HQ; apply (Hforeign h); [by subst req|by exists u]).
  - rewrite list.filter_app, filter_cons_False by (simpl; done).
    by rewrite app_nil_r.
  - clear Hp. induction (pages d) as [|p l IH]; [done|]. rewrite fmap_cons.
    destruct (decide (page_userId p = Q)) as [HQ|HQ].
    + rewrite !filter_cons_True by by rewrite ?set_fields_userId.
      rewrite IH. f_equal. unfold set_fields. rewrite decide_False; [done|].
      intros [_ Hm]. congruence.
    + by rewrite !filter_cons_False by by rewrite ?set_fields_userId.
  - apply list_filter_filter_l. intros p HQ [_ Hm]. congruence.
Qed.

(** X7.  A principal's own creation adds one row at the end of its listing:
    the next id, the title, and the content or the empty string. *)
Theorem listing_after_create (P : Z) (e : env) (authorization : option string)
    (title content : option string) (d : db) :
  as_principal P e authorization → js_not title = false →
  listing P (app e (POST_pages authorization title content) d).2 =
    (listing P d ++
     [mkRow (pages_seq d + 1) (str title) (Some (or_empty content))])%list.
Proof.
  intros A Ht. simpl.
  destruct (app_as_principal P e authorization (post_pages title content) d A)
    as (u & <- & ->).
  rewrite post_pages_eq, Ht. unfold listing. simpl.
  rewrite list.filter_app, filter_cons_True by done.
  by rewrite fmap_app.
Qed.

(** X8.  A principal's own update with a title rewrites, in its listing,
    every row under the id the path denotes into that id with the request's
    title and content, and leaves the other rows and the order alone. *)
Theorem listing_after_update (P : Z) (e : env) (authorization : option string)
    (pageId : string) (n : Z) (title content : option string) (d : db) :
  as_principal P e authorization → js_not title = false →
  integer_of_text pageId = Some n →
  listing P (app e (PUT_pages authorization pageId title content) d).2 =
    (λ r, if decide (row_id r = n) then mkRow n (str title) content else r)
      <$> listing P d.
Proof.
  intros A Ht Hn. simpl.
  destruct (app_as_principal P e authorization
              (put_pages pageId title content) d A) as (u & <- & ->).
  rewrite put_pages_eq, Ht. unfold listing. simpl.
  induction (pages d) as [|p l IH]; [done|]. rewrite fmap_cons.
  destruct (decide (page_userId p = claims_id u)) as [Hu|Hu].
  - rewrite !filter_cons_True by by rewrite ?set_fields_userId.
    rewrite !fmap_cons, IH. f_equal. unfold set_fields, matches.
    destruct (decide (page_id p = n)) as [Hid|Hid].
    + rewrite decide_True by (split; congruence).
      unfold row_of_page. simpl. rewrite decide_True by done. congruence.
    + rewrite decide_False by (intros [? _]; congruence).
      by rewrite decide_False.
  - by rewrite !filter_cons_False by by rewrite ?set_fields_userId.
Qed.

Lemma listing_without pageId n P (l : list page) :
  integer_of_text pageId = Some n →
  row_of_page <$> filter (λ p, page_userId p = P)
                    (filter (λ q, ¬ matches pageId P q) l) =
  filter (λ r, row_id r ≠ n) (row_of_page <$> filter (λ p, page_userId p = P) l).
Proof.
  intros Hn. induction l as [|p l IH]; [done|].
  destruct (decide (page_userId p = P)) as [Hu|Hu].
  - rewrite (filter_cons_True (λ q, page_userId q = P)) by done.
    rewrite fmap_cons.
    destruct (decide (page_id p = n)) as [Hid|Hid].
    + rewrite (filter_cons_False (λ q, ¬ matches pageId P q));
        [|intros Hno; apply Hno; split; congruence].
      rewrite (filter_cons_False (λ r, row_id r ≠ n)) by (simpl; tauto).
      done.
    + rewrite (filter_cons_True (λ q, ¬ matches pageId P q));
        [|intros [? _]; congruence].
      rewrite (filter_cons_True (λ q, page_userId q = P)) by done.
      rewrite fmap_cons, (filter_cons_True (λ r, row_id r ≠ n)) by done.
      by rewrite IH.
  - rewrite (filter_cons_False (λ q, page_userId q = P)) by done.
    destruct (decide (matches pageId P p)) as [Hm|Hm].
    + by rewrite (filter_cons_False (λ q, ¬ matches pageId P q)) by tauto.
    + rewrite (filter_cons_True (λ q, ¬ matches pageId P q)) by done.
      by rewrite (filter_cons_False (λ q, page_userId q = P)) by done.
Qed.

(** X9.  A principal's own deletion removes from its listing exactly the
    rows under the id the path denotes. *)
Theorem listing_after_delete (P : Z) (e : env) (authorization : option string)
    (pageId : string) (n : Z) (d : db) :
  as_principal P e authorization → integer_of_text pageId = Some n →
  listing P (app e (DELETE_pages authorization pageId) d).2 =
    filter (λ r, row_id r ≠ n) (listing P d).
Proof.
  intros A Hn. simpl.
  destruct (app_as_principal P e authorization (delete_pages pageId) d A)
    as (u & <- & ->).
  rewrite delete_pages_eq. unfold listing. simpl.
  by apply listing_without.
Qed.

End PagesExtras.

(** ** Ids, repeated requests and the header *)

Section IdsExtras.
Context `{Jwt, Bcrypt, Sqlite}.

Lemma app_POST_pages_201 e authorization title content d r d' :
  app e (POST_pages authorization title content) d = (r, d') →
  status r = 201 →
  ∃ user, authenticated (clock e) authorization user ∧ js_not title = false ∧
    r = json 201 (PageCreated (pages_seq d + 1) (str title) content
                              (claims_id user)) ∧
    pages_seq d' = pages_seq d + 1.
Proof.
  simpl. intros Happ Hok.
  destruct (app_authenticated_inv _ _ _ _ _ _ Happ)
    as [[-> _]|[[-> _]|(user & Hu & Hpost)]]; [done..|].
  exists user. split; [done|]. rewrite post_pages_eq in Hpost.
  destruct (js_not title); [by injection Hpost as <- <-|].
  by injection Hpost as <- <-.
Qed.

Lemma app_DELETE_pages_204 e authorization pageId d d' :
  app e (DELETE_pages authorization pageId) d = (mkResponse 204 Empty, d') →
  ∃ user p, authenticated (clock e) authorization user ∧
    p ∈ pages d ∧ matches pageId (claims_id user) p ∧
    pages d' = filter (λ q, ¬ matches pageId (claims_id user) q) (pages d) ∧
    pages_seq d' = pages_seq d.
Proof.
  simpl. intros Happ.
  destruct (app_authenticated_inv _ _ _ _ _ _ Happ)
    as [[? _]|[[? _]|(user & Hu & Hdel)]]; [done..|].
  rewrite delete_pages_eq in Hdel. case_bool_decide as Hc; [done|].
  injection Hdel as <-.
  destruct (filter (matches pageId (claims_id user)) (pages d)) as [|p l] eqn:Hf;
    [done|].
  assert (p ∈ filter (matches pageId (claims_id user)) (pages d)) as Hp
    by (rewrite Hf; apply list_elem_of_here).
  apply list_elem_of_filter in Hp as [Hm Hp]. by exists user, p.
Qed.

(** X10.  A deleted id stays gone: after a deletion answered 204 in a
    well-formed table, no later state, whatever requests are served, has a
    page under the id the path denotes, and any authenticated deletion or
    update (with a title) of that path is answered 404 and changes nothing. *)
Theorem deleted_id_stays_gone (e : env) (authorization : option string)
    (pageId : string) (d d1 : db) (calls : list (env * request)) :
  pages_wf d →
  app e (DELETE_pages authorization pageId) d = (mkResponse 204 Empty, d1) →
  (∀ p, p ∈ pages (run d1 calls) → integer_of_text pageId ≠ Some (page_id p)) ∧
  (∀ e' authorization' user,
      authenticated (clock e') authorization' user →
      app e' (DELETE_pages authorization' pageId) (run d1 calls) =
        (json 404 (Message
           "Page not found or you don't have permission to delete it."),
         run d1 calls) ∧
      ∀ title content,
        js_not title = false →
        app e' (PUT_pages authorization' pageId title content) (run d1 calls) =
          (json 404 (Message
             "Page not found or you don't have permission to edit it."),
           run d1 calls)).
Proof.
  intros [Hnd Hle] Hdel.
  destruct (app_DELETE_pages_204 _ _ _ _ _ Hdel)
    as (user & p & Hu & Hp & [Hid Ho] & Hpages & Hseq).
  assert (∀ q, q ∈ pages (run d1 calls) →
               integer_of_text pageId ≠ Some (page_id q)) as Hgone.
  { intros q Hq Hqid.
    destruct (run_pages_origin calls d1 q Hq) as [_ [(q0 & Hq0 & Hi & _)|Hnew]].
    - rewrite Hpages in Hq0. apply list_elem_of_filter in Hq0 as [Hno Hq0].
      assert (q0 = p) as ->.
      { apply (page_id_inj_on (pages d)); [done..|]. congruence. }
      by apply Hno.
    - rewrite list.Forall_forall in Hle. specialize (Hle p Hp).
      rewrite Hid in Hqid. injection Hqid as Hqid. lia. }
  split; [done|]. intros e' h' user' Hu'.
  assert (Forall (λ q, ¬ matches pageId (claims_id user') q)
            (pages (run d1 calls))) as Hno.
  { apply list.Forall_forall. intros q Hq [Hm _]. by apply (Hgone q). }
  split.
  - simpl. rewrite (authenticateToken_admits _ _ user') by done.
    by apply delete_pages_unselected.
  - intros title content Ht. simpl.
    rewrite (authenticateToken_admits _ _ user') by done.
    rewrite put_pages_unselected by done. by rewrite Ht.
Qed.

(** X11.  Ids are handed out in increasing order and never again: of two
    creations answered 201, the later one, whatever was served in between
    (deletions included), returns the greater id; and in a well-formed
    table the id a creation returns is greater than every id present. *)
Theorem created_ids_increase (e1 e2 : env) (h1 h2 : option string)
    (t1 c1 t2 c2 : option string) (d d1 d2 : db) (r1 r2 : response)
    (calls : list (env * request)) :
  app e1 (POST_pages h1 t1 c1) d = (r1, d1) → status r1 = 201 →
  app e2 (POST_pages h2 t2 c2) (run d1 calls) = (r2, d2) → status r2 = 201 →
  ∃ id1 id2 u1 u2,
    r1 = json 201 (PageCreated id1 (str t1) c1 u1) ∧
    r2 = json 201 (PageCreated id2 (str t2) c2 u2) ∧
    id1 < id2 ∧
    (pages_wf d → ∀ p, p ∈ pages d → page_id p < id1).
Proof.
  intros Happ1 Hok1 Happ2 Hok2.
  destruct (app_POST_pages_201 _ _ _ _ _ _ _ Happ1 Hok1)
    as (u1 & _ & _ & -> & Hs1).
  destruct (app_POST_pages_201 _ _ _ _ _ _ _ Happ2 Hok2)
    as (u2 & _ & _ & -> & Hs2).
  eexists _, _, _, _. split; [done|]. split; [done|].
  pose proof (run_pages_seq_mono calls d1). split; [lia|].
  intros [_ Hle] p Hp. rewrite list.Forall_forall in Hle.
  specialize (Hle p Hp). lia.
Qed.

(** X12.  An update is idempotent: sent a second time by the same principal
    with the same path, title and content, it gets the same answer and
    leaves the database as the first left it. *)
Theorem update_is_idempotent (P : Z) (e1 e2 : env) (h1 h2 : option string)
    (pageId : string) (title content : option string) (d : db) :
  as_principal P e1 h1 → as_principal P e2 h2 →
  app e2 (PUT_pages h2 pageId title content)
      (app e1 (PUT_pages h1 pageId title content) d).2 =
  app e1 (PUT_pages h1 pageId title content) d.
Proof.
  intros A1 A2. simpl.
  destruct (app_as_principal P e1 h1 (put_pages pageId title content) d A1)
    as (u1 & Hu1 & ->).
  destruct (app_as_principal P e2 h2 (put_pages pageId title content)
              (put_pages pageId title content u1 d).2 A2) as (u2 & Hu2 & ->).
  rewrite !put_pages_eq, Hu1, Hu2. destruct (js_not title); [done|]. simpl.
  rewrite count_set_fields. f_equal. f_equal.
  rewrite <- list_fmap_compose. apply list_fmap_ext. intros ? p _. simpl.
  apply set_fields_twice.
Qed.

(** X13.  A path that denotes no integer, or the id of no page, is answered
    404 to any authenticated deletion or update with a title, and nothing
    changes. *)
Theorem unknown_id_is_404 (e : env) (authorization : option string)
    (user : claims) (pageId : string) (d : db) :
  authenticated (clock e) authorization user →
  (∀ p, p ∈ pages d → integer_of_text pageId ≠ Some (page_id p)) →
  app e (DELETE_pages authorization pageId) d =
    (json 404 (Message
       "Page not found or you don't have permission to delete it."), d) ∧
  ∀ title content,
    js_not title = false →
    app e (PUT_pages authorization pageId title content) d =
      (json 404 (Message
         "Page not found or you don't have permission to edit it."), d).
Proof.
  intros Hu Hunknown.
  assert (Forall (λ q, ¬ matches pageId (claims_id user) q) (pages d)) as Hno.
  { apply list.Forall_forall. intros q Hq [Hm _]. by apply (Hunknown q). }
  split.
  - simpl. rewrite (authenticateToken_admits _ _ user) by done.
    by apply delete_pages_unselected.
  - intros title content Ht. simpl.
    rewrite (authenticateToken_admits _ _ user) by done.
    rewrite put_pages_unselected by done. by rewrite Ht.
Qed.

(** X14.  The middleware reads the second blank-separated piece and nothing
    after it: a verified token followed by further pieces is let through,
    and a header with two blanks after its first word yields the empty
    token, whatever follows. *)
Theorem guard_reads_second_piece (now : Z) (scheme token rest : string)
    (next : claims → db → response * db) (d : db) :
  has_space scheme = false →
  (∀ user, has_space token = false →
     jwt_verify token JWT_SECRET now = Done user →
     authenticateToken now
       (Some (scheme +:+ String " " (token +:+ String " " rest))) next d =
       next user d) ∧
  bearer_token (Some (scheme +:+ String " " (String " " rest))) = Some "".
Proof.
  intros Hs. split.
  - intros user Ht Hv. eapply authenticateToken_verified; [|done].
    apply bearer_token_second.
    by rewrite split_space_app, (split_space_app token rest).
  - apply bearer_token_second. by rewrite split_space_app.
Qed.

(** X15.  Users are only ever added: after any requests the users table is
    the old one followed by new rows, so no row is removed or altered; and a
    request on a page route leaves the users table and its sequence alone. *)
Theorem users_append_only (d : db) (calls : list (env * request)) :
  (∃ more, users (run d calls) = (users d ++ more)%list) ∧
  (∀ e req, is_Some (request_authorization req) →
            users (app e req d).2 = users d ∧
            users_seq (app e req d).2 = users_seq d).
Proof.
  split; [apply run_users_append|].
  intros e req [h Hh].
  destruct (app_users_append e req d) as [?|(em & pw & -> & _)]; done.
Qed.

End IdsExtras.

(** ** Composition of writes, and time *)

Section ComposeExtras.
Context `{Jwt, Bcrypt, Sqlite}.

Lemma set_fields_over title content title' content' pageId userId p :
  set_fields title' content' pageId userId
    (set_fields title content pageId userId p) =
  set_fields title' content' pageId userId p.
Proof.
  destruct (decide (matches pageId userId p)) as [Hm|Hm].
  - assert (set_fields title content pageId userId p =
            mkPage (page_id p) title content (page_userId p)) as ->
      by (unfold set_fields; by rewrite decide_True).
    unfold set_fields. by rewrite !decide_True.
  - assert (set_fields title content pageId userId p = p) as ->
      by (unfold set_fields; by rewrite decide_False).
    done.
Qed.

(** X24.  Creating a page and then deleting the id it was given leaves both
    tables as they were; only the sequence has moved on, so the id is not
    handed out again. *)
Theorem create_then_delete (P : Z) (e1 e2 : env) (h1 h2 : option string)
    (title content : option string) (pageId : string) (d : db) :
  pages_wf d → as_principal P e1 h1 → as_principal P e2 h2 →
  js_not title = false →
  integer_of_text pageId = Some (pages_seq d + 1) →
  ∃ d2,
    app e2 (DELETE_pages h2 pageId) (app e1 (POST_pages h1 title content) d).2 =
      (mkResponse 204 Empty, d2) ∧
    users d2 = users d ∧ users_seq d2 = users_seq d ∧
    pages d2 = pages d ∧ pages_seq d2 = pages_seq d + 1.
Proof.
  intros [_ Hle] A1 A2 Ht Hid.
  assert (app e1 (POST_pages h1 title content) d =
            (json 201 (PageCreated (pages_seq d + 1) (str title) content P),
             mkDb (users d) (users_seq d)
                  (pages d ++ [mkPage (pages_seq d + 1) (str title)
                                 (Some (or_empty content)) P])
                  (pages_seq d + 1))) as ->.
  { simpl. destruct (app_as_principal P e1 h1 (post_pages title content) d A1)
      as (u & <- & ->). by rewrite post_pages_eq, Ht. }
  set (new := mkPage (pages_seq d + 1) (str title) (Some (or_empty content)) P).
  assert (matches pageId P new) as Hnew by done.
  eexists. split.
  { apply (app_DELETE_pages P e2 h2 pageId _ new); [done| |done].
    simpl. apply elem_of_app. right. apply list_elem_of_here. }
  simpl. do 2 (split; [done|]). split; [|done].
  rewrite list.filter_app, filter_cons_False by tauto.
  rewrite app_nil_r. apply filter_unselected.
  apply list.Forall_forall. intros q Hq [Hm _].
  rewrite list.Forall_forall in Hle. specialize (Hle q Hq).
  rewrite Hid in Hm. injection Hm as Hm. lia.
Qed.

(** X25.  The last write wins: an update with a title gets the same answer
    and leaves the same database whether or not another update of the same
    path by the same principal came just before it. *)
Theorem last_write_wins (P : Z) (e1 e2 : env) (h1 h2 : option string)
    (pageId : string) (title1 content1 title2 content2 : option string)
    (d : db) :
  as_principal P e1 h1 → as_principal P e2 h2 → js_not title2 = false →
  app e2 (PUT_pages h2 pageId title2 content2)
      (app e1 (PUT_pages h1 pageId title1 content1) d).2 =
  app e2 (PUT_pages h2 pageId title2 content2) d.
Proof.
  intros A1 A2 Ht2. simpl.
  destruct (app_as_principal P e1 h1 (put_pages pageId title1 content1) d A1)
    as (u1 & Hu1 & ->).
  destruct (app_as_principal P e2 h2 (put_pages pageId title2 content2) d A2)
    as (u2 & Hu2 & ->).
  destruct (app_as_principal P e2 h2 (put_pages pageId title2 content2)
              (put_pages pageId title1 content1 u1 d).2 A2) as (u3 & Hu3 & ->).
  rewrite !put_pages_eq, Hu1, Hu2, Hu3, Ht2.
  destruct (js_not title1); [done|]. simpl.
  rewrite count_set_fields. f_equal. f_equal.
  rewrite <- list_fmap_compose. apply list_fmap_ext. intros ? p _. simpl.
  apply set_fields_over.
Qed.

End ComposeExtras.

(** * Properties of the browser application *)

Section ClientProps.
Context `{Jwt, Bcrypt, Sqlite, Browser}.

Definition tokens_of (c : client) : option string * option string :=
  (stored_token c, app_token c).

(** What a handler may do to the two token cells: nothing, or clear both. *)
Definition kept_or_cleared (c c' : client) : Prop :=
  tokens_of c' = tokens_of c ∨ tokens_of c' = (None, None).

Lemma kept_or_cleared_refl c : kept_or_cleared c c.
Proof. by left. Qed.

Lemma kept_or_cleared_trans c1 c2 c3 :
  kept_or_cleared c1 c2 → kept_or_cleared c2 c3 → kept_or_cleared c1 c3.
Proof.
  unfold kept_or_cleared. intros [H12|H12] [H23|H23]; rewrite ?H23, ?H12; auto.
Qed.

Lemma kept_or_cleared_sync c c' :
  kept_or_cleared c c' → in_sync c → in_sync c'.
Proof.
  unfold kept_or_cleared, tokens_of, in_sync. intros [[= -> ->]|[= -> ->]]; done.
Qed.

Lemma authenticatedFetch_eq e route c d t :
  stored_token c = Some t → t ≠ "" →
  authenticatedFetch e route c d =
    (let r := app e (route (Some ("Bearer " +:+ t))) d in
     (r.1,
      if bool_decide (status r.1 = 401) || bool_decide (status r.1 = 403)
      then setError "Your session has expired. Please sign in again."
                    (removeToken c)
      else c,
      r.2)).
Proof.
  intros Hs Ht. unfold authenticatedFetch. rewrite Hs, js_not_present by done.
  simpl. destruct (app e _ d) as [r d']. simpl. by destruct (_ || _).
Qed.

Lemma authenticatedFetch_tokens e route c d :
  kept_or_cleared c (authenticatedFetch e route c d).1.2.
Proof.
  unfold authenticatedFetch. destruct (app e _ d) as [r d'].
  destruct (_ || _); simpl; [by right|by left].
Qed.

Lemma effect_tokens e c d : kept_or_cleared c (effect e c d).1.
Proof.
  unfold effect. destruct (js_not (app_token c)); [by left|].
  pose proof (authenticatedFetch_tokens e GET_pages (setLoading true c) d) as Hk.
  destruct (authenticatedFetch e GET_pages (setLoading true c) d)
    as [[res c1] d1]. simpl in *.
  destruct (negb (ok res)); [exact Hk|].
  destruct (response_json res); exact Hk.
Qed.

Lemma run_effect_tokens e c d : kept_or_cleared c (run_effect e c d).1.
Proof.
  unfold run_effect. pose proof (effect_tokens e c d) as Hk.
  destruct (effect e c d) as [c1 d1]. simpl in *.
  case_decide; [done|].
  eapply kept_or_cleared_trans; [done|]. apply effect_tokens.
Qed.

Lemma useEffect_tokens e before c d : kept_or_cleared c (useEffect e before c d).1.
Proof.
  unfold useEffect. case_decide; [by left|]. apply run_effect_tokens.
Qed.

Lemma handleSavePage_tokens e1 e2 pageToSave c d :
  kept_or_cleared c (handleSavePage e1 e2 pageToSave c d).1.
Proof.
  unfold handleSavePage.
  pose proof (authenticatedFetch_tokens e1 (save_request pageToSave) c d) as Hk.
  destruct (authenticatedFetch e1 (save_request pageToSave) c d)
    as [[r c1] d1]. simpl in *.
  destruct (negb (ok r)); [by destruct (response_json r)|].
  pose proof (authenticatedFetch_tokens e2 GET_pages c1 d1) as Hk2.
  destruct (authenticatedFetch e2 GET_pages c1 d1) as [[r2 c2] d2]. simpl in *.
  pose proof (kept_or_cleared_trans _ _ _ Hk Hk2).
  by destruct (response_json r2).
Qed.

Lemma handleDeletePage_tokens e confirm pageId c d :
  kept_or_cleared c (handleDeletePage e confirm pageId c d).1.
Proof.
  unfold handleDeletePage. destruct confirm; [|by left].
  pose proof (authenticatedFetch_tokens e
    (λ authorization, DELETE_pages authorization (number_to_string pageId))
    c d) as Hk.
  destruct (authenticatedFetch e _ c d) as [[r c1] d1]. simpl in *.
  destruct (negb (ok r)); [done|]. by destruct (app_pages c).
Qed.

(** What [POST /api/login] and [POST /api/register] can answer. *)
Lemma post_login_cases now email password d :
  (∃ message, post_login now email password d = (json 400 (Message message), d)) ∨
  (∃ message, post_login now email password d = (json 401 (Message message), d)) ∨
  (∃ token, post_login now email password d = (json 200 (AccessToken token), d)).
Proof.
  unfold post_login. destruct (_ || _); [left; by eexists|].
  destruct (get_user _ d) as [?|[u|]] eqn:Hg; [by unfold get_user in Hg| |].
  - destruct (negb _); [right; left; by eexists|right; right; by eexists].
  - right. left. by eexists.
Qed.

Lemma post_register_cases salt email password d :
  (∃ message, post_register salt email password d =
                (json 400 (Message message), d)) ∨
  (∃ message, post_register salt email password d =
                (json 409 (Message message), d)) ∨
  (∃ message userId d', post_register salt email password d =
                (json 201 (UserCreated message userId), d')).
Proof.
  unfold post_register. destruct (_ || _); [left; by eexists|].
  unfold insert_user. case_bool_decide; [right; left; by eexists|].
  right; right. by eexists _, _, _.
Qed.

Lemma handleSubmit_tokens e isSignUp email password c d :
  tokens_of (handleSubmit e isSignUp email password c d).1 = tokens_of c ∨
  ∃ token, tokens_of (handleSubmit e isSignUp email password c d).1 =
             (Some token, Some token).
Proof.
  unfold handleSubmit. destruct isSignUp; simpl.
  - destruct (post_register_cases (entropy e) (Some email) (Some password) d)
      as [(m & ->)|[(m & ->)|(m & i & d' & ->)]]; by left.
  - destruct (post_login_cases (clock e) (Some email) (Some password) d)
      as [(m & ->)|[(m & ->)|(t & ->)]]; [by left..|]. right. by exists t.
Qed.

(** X16.  The two places that hold the session token, [localStorage] and
    the [token] state, agree after loading the page and stay in agreement
    through every event. *)
Theorem client_tokens_stay_in_sync :
  (∀ e stored d, in_sync (mount e stored d).1) ∧
  (∀ e1 e2 ev c d, in_sync c → in_sync (client_step e1 e2 ev c d).1).
Proof.
  split.
  - intros e stored d. unfold mount.
    apply (kept_or_cleared_sync (initial_client stored));
      [apply run_effect_tokens|done].
  - intros e1 e2 ev c d Hsync. unfold client_step.
    match goal with
    | |- in_sync (let '(c1, d1) := ?X in _).1 =>
        assert (in_sync X.1) as Hc1; [|destruct X as [c1 d1]]
    end.
    + destruct ev as [s em pw| |row| | |t html|confirm pid|]; simpl.
      * destruct (negb (js_not (app_token c))); [done|].
        destruct (handleSubmit_tokens e1 s em pw c d) as [Hk|[t Hk]].
        -- by apply (kept_or_cleared_sync c); [left|].
        -- unfold in_sync. by injection Hk as -> ->.
      * by destruct (negb (js_not (app_token c))).
      * by destruct (_ && _).
      * by destruct (_ && _).
      * by destruct (_ && _).
      * destruct (app_currentPage c); [|done].
        destruct (negb (js_not (app_token c))); [|done].
        apply (kept_or_cleared_sync c); [apply handleSavePage_tokens|done].
      * destruct (_ && _); [|done].
        apply (kept_or_cleared_sync c); [apply handleDeletePage_tokens|done].
      * done.
    + apply (kept_or_cleared_sync c1); [apply useEffect_tokens|done].
Qed.

(** X17.  A sign-in or sign-up the server refuses shows the server's own
    message and changes nothing else: the tokens, the list, and the
    database stay as they were. *)
Theorem refused_submit_shows_message (e1 e2 : env) (isSignUp : bool)
    (email password : string) (c : client) (d : db) :
  js_not (app_token c) = true →
  ok (app e1 (if isSignUp then POST_register (Some email) (Some password)
              else POST_login (Some email) (Some password)) d).1 = false →
  ∃ message,
    payload (app e1 (if isSignUp then POST_register (Some email) (Some password)
                     else POST_login (Some email) (Some password)) d).1 =
      Message message ∧
    client_step e1 e2 (Submit isSignUp email password) c d =
      (setError message c, d).
Proof.
  intros Hout Hrefused. unfold client_step. simpl. rewrite Hout. simpl.
  unfold handleSubmit. destruct isSignUp; simpl in *.
  - destruct (post_register_cases (entropy e1) (Some email) (Some password) d)
      as [(m & Hr)|[(m & Hr)|(m & i & d' & Hr)]]; rewrite Hr in *; [..|done].
    all: exists m; split; [done|]; simpl; unfold useEffect; simpl;
      rewrite decide_True by done; unfold post_register in Hr;
      destruct c; simpl in *;
      repeat (case_match; simplify_eq/=; try done).
  - destruct (post_login_cases (clock e1) (Some email) (Some password) d)
      as [(m & Hr)|[(m & Hr)|(t & Hr)]]; rewrite Hr in *; [..|done].
    all: exists m; split; [done|]; simpl; unfold useEffect; simpl;
      rewrite decide_True by done; unfold post_login in Hr;
      destruct c; simpl in *;
      repeat (case_match; simplify_eq/=; try done).
Qed.

End ClientProps.

Section ClientFlows.
Context `{Jwt, Bcrypt, Sqlite, Browser}.

#[local] Arguments app : simpl never.
#[local] Arguments authenticatedFetch : simpl never.
#[local] Arguments effect : simpl never.
#[local] Arguments run_effect : simpl never.
#[local] Arguments useEffect : simpl never.
#[local] Arguments handleSubmit : simpl never.
#[local] Arguments handleSavePage : simpl never.
#[local] Arguments handleDeletePage : simpl never.
#[local] Arguments save_request : simpl never.
#[local] Arguments listing : simpl never.
#[local] Arguments post_login : simpl never.

Lemma fetch_pages_admitted P e c d t :
  stored_token c = Some t → t ≠ "" →
  as_principal P e (Some ("Bearer " +:+ t)) →
  authenticatedFetch e GET_pages c d = (json 200 (Rows (listing P d)), c, d).
Proof.
  intros Hs Ht A. rewrite (authenticatedFetch_eq _ _ _ _ t) by done.
  by rewrite (app_GET_pages P).
Qed.

Lemma bearer_header_rejected now t next d :
  (∀ user, ¬ authenticated now (Some ("Bearer " +:+ t)) user) →
  authenticateToken now (Some ("Bearer " +:+ t)) next d = (sendStatus 403, d).
Proof.
  intros Hno. unfold authenticateToken.
  destruct (bearer_token (Some ("Bearer " +:+ t))) as [token|] eqn:Hb.
  - destruct (jwt_verify token JWT_SECRET now) as [err|user] eqn:Hv; [done|].
    destruct (Hno user). by exists token.
  - apply bearer_token_none in Hb as [?|(h & [= <-] & _ & Hs)]; done.
Qed.

Lemma effect_admitted P e c d t :
  stored_token c = Some t → app_token c = Some t → t ≠ "" →
  as_principal P e (Some ("Bearer " +:+ t)) →
  effect e c d =
    (mkClient (Some t) (Some t) (Rows (listing P d)) (app_currentPage c)
              (app_error c) false, d).
Proof.
  intros Hs Ha Ht A. unfold effect. rewrite Ha, js_not_present by done.
  rewrite (fetch_pages_admitted P _ _ _ t) by done. simpl.
  unfold setLoading, setPages. simpl. by rewrite Hs, Ha.
Qed.

Lemma effect_rejected e c d t :
  stored_token c = Some t → app_token c = Some t → t ≠ "" →
  (∀ user, ¬ authenticated (clock e) (Some ("Bearer " +:+ t)) user) →
  effect e c d =
    (mkClient None None (app_pages c) (app_currentPage c)
              "Failed to fetch pages." false, d).
Proof.
  intros Hs Ha Ht Hno. unfold effect. rewrite Ha, js_not_present by done.
  rewrite (authenticatedFetch_eq _ _ _ _ t) by done. unfold app.
  by rewrite bearer_header_rejected by done.
Qed.

Lemma effect_signed_out e c d :
  app_token c = None → effect e c d = (setPages (Rows []) c, d).
Proof. intros Ha. unfold effect. by rewrite Ha. Qed.

Lemma signed_out_differs (c : client) t :
  js_not (app_token c) = true → t ≠ "" → Some t ≠ app_token c.
Proof. intros Hout Ht Heq. rewrite <- Heq in Hout. by destruct t. Qed.

(** X18.  Signing in with the email and password of a user row leaves the
    client holding the token in both places, with no error, and showing
    exactly that user's pages as the server lists them, provided the list is
    fetched within the hour. *)
Theorem sign_in_shows_own_pages (e1 e2 : env) (email password : string)
    (c : client) (d : db) (u : user) :
  js_not (app_token c) = true →
  email ≠ "" → password ≠ "" →
  get_user email d = Done (Some u) →
  bcrypt_compare password (user_password u) = true →
  jwt_sign (user_id u) (user_email u) JWT_SECRET (clock e1) ≠ "" →
  clock e2 < clock e1 + 3600 →
  client_step e1 e2 (Submit false email password) c d =
    (mkClient (Some (jwt_sign (user_id u) (user_email u) JWT_SECRET (clock e1)))
              (Some (jwt_sign (user_id u) (user_email u) JWT_SECRET (clock e1)))
              (Rows (listing (user_id u) d)) (app_currentPage c) "" false,
     d).
Proof.
  intros Hout He Hp Hget Hc Htoken Hnow.
  set (token := jwt_sign (user_id u) (user_email u) JWT_SECRET (clock e1)) in *.
  assert (post_login (clock e1) (Some email) (Some password) d =
            (json 200 (AccessToken token), d)) as Hlogin.
  { unfold post_login. rewrite !js_not_present by done.
    change (str (Some email)) with email.
    change (str (Some password)) with password.
    rewrite Hget. simpl. by rewrite Hc. }
  assert (as_principal (user_id u) e2 (Some ("Bearer " +:+ token))) as A.
  { eexists. split; [exists token; split|].
    - apply bearer_token_signed.
    - unfold token. rewrite jwt_verify_sign.
      by rewrite bool_decide_eq_false_2 by lia.
    - done. }
  unfold client_step. rewrite Hout. simpl.
  unfold handleSubmit, app. rewrite Hlogin. simpl.
  unfold useEffect. simpl.
  rewrite decide_False by by apply signed_out_differs.
  unfold run_effect.
  rewrite (effect_admitted (user_id u) _ _ _ token) by done. simpl.
  by rewrite decide_True.
Qed.


(** X20.  A save the editor's form submits, that is, one with a title, sent
    under a session the server accepts, is refused in one case only: the
    page in the editor has an id and is no longer among the principal's
    pages on the server.  The client then shows the server's message "Page
    not found or you don't have permission to edit it.", the editor stays
    open on the same page, and the list and the database are unchanged. *)
Theorem save_refused_when_page_is_gone (P : Z) (e1 e2 : env)
    (title htmlContent : string) (c : client) (d : db) (t : string)
    (page : form) :
  stored_token c = Some t → app_token c = Some t → t ≠ "" →
  app_currentPage c = Some page →
  title ≠ "" →
  as_principal P e1 (Some ("Bearer " +:+ t)) →
  (ok (app e1 (save_request (handleSave page title htmlContent)
                 (Some ("Bearer " +:+ t))) d).1 = false ↔
   ∃ id, form_id page = Some id ∧ id ≠ 0 ∧
         ∀ p, p ∈ pages d → ¬ matches (number_to_string id) P p) ∧
  (ok (app e1 (save_request (handleSave page title htmlContent)
                 (Some ("Bearer " +:+ t))) d).1 = false →
   client_step e1 e2 (Save title htmlContent) c d =
     (setError "Page not found or you don't have permission to edit it." c,
      d)).
Proof.
  intros Hs Ha Ht Hpage Htitle A.
  assert (∀ pageId,
            app e1 (PUT_pages (Some ("Bearer " +:+ t)) pageId (Some title)
                      (Some htmlContent)) d =
              put_pages pageId (Some title) (Some htmlContent)
                        (mkClaims P "" 0 0) d) as Hput.
  { intros pageId. unfold app.
    destruct (app_as_principal P e1 _
                (put_pages pageId (Some title) (Some htmlContent)) d A)
      as (u & Hu & ->).
    by rewrite !put_pages_eq, Hu. }
  assert (ok (app e1 (POST_pages (Some ("Bearer " +:+ t)) (Some title)
                        (Some htmlContent)) d).1 = true) as Hpost.
  { unfold app.
    destruct (app_as_principal P e1 _
                (post_pages (Some title) (Some htmlContent)) d A)
      as (u & Hu & ->).
    by rewrite post_pages_eq, js_not_present. }
  assert (ok (app e1 (save_request (handleSave page title htmlContent)
                        (Some ("Bearer " +:+ t))) d).1 = false →
          ∃ id, form_id page = Some id ∧ id ≠ 0 ∧
                Forall (λ p, ¬ matches (number_to_string id) P p) (pages d))
    as Hgone.
  { unfold save_request. simpl. destruct (form_id page) as [id|]; simpl.
    - case_bool_decide as Hid; simpl; [by rewrite Hpost|].
      rewrite Hput, put_pages_eq, js_not_present by done. simpl.
      case_bool_decide as Hcount; [|done]. intros _.
      exists id. do 2 (split; [done|]). by apply unselected_of_count.
    - by rewrite Hpost. }
  split; [split|].
  - intros (id & Hid & Hid0 & Hno)%Hgone. exists id. do 2 (split; [done|]).
    by apply list.Forall_forall.
  - intros (id & Hid & Hid0 & Hno). unfold save_request. simpl.
    rewrite Hid. simpl. rewrite bool_decide_eq_false_2 by done. simpl.
    rewrite Hput, put_pages_unselected, js_not_present; [done..|].
    by apply list.Forall_forall.
  - intros (id & Hid & Hid0 & Hno)%Hgone.
    unfold client_step. rewrite Ha, Hpage, js_not_present by done. simpl.
    unfold handleSavePage.
    rewrite (authenticatedFetch_eq _ _ _ _ t) by done.
    assert (app e1 (save_request (handleSave page title htmlContent)
                      (Some ("Bearer " +:+ t))) d =
              (json 404 (Message
                 "Page not found or you don't have permission to edit it."),
               d)) as ->.
    { unfold save_request. simpl. rewrite Hid. simpl.
      rewrite bool_decide_eq_false_2 by done. simpl.
      by rewrite Hput, put_pages_unselected, js_not_present. }
    simpl. unfold useEffect. simpl. by rewrite decide_True.
Qed.

(** X21.  Deleting from the list: when the list shown is the server's
    listing and the server deletes the page, the list the client computes by
    itself, without asking again, is the server's new listing; and a
    deletion the user does not confirm does nothing at all. *)
Theorem delete_keeps_list_in_step (P : Z) (e1 e2 : env) (pageId : Z)
    (c : client) (d : db) (t : string) (p : page) :
  stored_token c = Some t → app_token c = Some t → t ≠ "" →
  app_currentPage c = None →
  as_principal P e1 (Some ("Bearer " +:+ t)) →
  app_pages c = Rows (listing P d) →
  integer_of_text (number_to_string pageId) = Some pageId →
  p ∈ pages d → page_id p = pageId → page_userId p = P →
  (∃ d1,
     client_step e1 e2 (Delete true pageId) c d =
       (setPages (Rows (listing P d1)) c, d1) ∧
     pages d1 =
       filter (λ q, ¬ matches (number_to_string pageId) P q) (pages d)) ∧
  client_step e1 e2 (Delete false pageId) c d = (c, d).
Proof.
  intros Hs Ha Ht Hpage A Hshown Hid Hp Hpid Hpo.
  assert (matches (number_to_string pageId) P p) as Hm
    by (split; congruence).
  split.
  - exists (mkDb (users d) (users_seq d)
              (filter (λ q, ¬ matches (number_to_string pageId) P q) (pages d))
              (pages_seq d)).
    split; [|done].
    unfold client_step. rewrite Ha, Hpage, js_not_present by done. simpl.
    unfold handleDeletePage.
    rewrite (authenticatedFetch_eq _ _ _ _ t) by done.
    rewrite (app_DELETE_pages P e1 _ _ d p) by done. simpl.
    rewrite Hshown. unfold useEffect. simpl. rewrite decide_True by done.
    unfold listing. simpl. by rewrite (listing_without _ pageId).
  - unfold client_step. rewrite Ha, Hpage, js_not_present by done. simpl.
    unfold useEffect. by rewrite decide_True.
Qed.

(** X22.  A session the server no longer accepts ends on the next request:
    after a deletion or a save sent with such a token, both token cells are
    empty, the list is empty, and the database is untouched; the error shown
    is "Failed to delete page." for the deletion and, for the save, the
    message of the exception raised by parsing the body [Forbidden]. *)
Theorem rejected_request_signs_out (e1 e2 : env) (c : client) (d : db)
    (t : string) :
  stored_token c = Some t → app_token c = Some t → t ≠ "" →
  (∀ user, ¬ authenticated (clock e1) (Some ("Bearer " +:+ t)) user) →
  (app_currentPage c = None →
   ∀ pageId,
     client_step e1 e2 (Delete true pageId) c d =
       (mkClient None None (Rows []) None "Failed to delete page."
                 (app_loading c), d)) ∧
  (∀ page title htmlContent,
     app_currentPage c = Some page →
     client_step e1 e2 (Save title htmlContent) c d =
       (mkClient None None (Rows []) (Some page)
                 (json_syntax_error "Forbidden") (app_loading c), d)).
Proof.
  intros Hs Ha Ht Hno. split.
  - intros Hpage pageId.
    unfold client_step. rewrite Ha, Hpage, js_not_present by done. simpl.
    unfold handleDeletePage.
    rewrite (authenticatedFetch_eq _ _ _ _ t) by done. unfold app.
    rewrite bearer_header_rejected by done. simpl.
    unfold useEffect. simpl. rewrite Ha. rewrite decide_False by done.
    unfold run_effect. rewrite effect_signed_out by done. simpl.
    rewrite ?decide_True by done. unfold setPages, setError, removeToken.
    simpl. by rewrite Hpage.
  - intros page title htmlContent Hpage.
    unfold client_step. rewrite Ha, Hpage, js_not_present by done. simpl.
    unfold handleSavePage.
    rewrite (authenticatedFetch_eq _ _ _ _ t) by done.
    assert (app e1 (save_request (handleSave page title htmlContent)
                      (Some ("Bearer " +:+ t))) d = (sendStatus 403, d)) as ->.
    { unfold save_request. simpl.
      destruct (match form_id page with Some id => _ | None => _ end);
        unfold app; by apply bearer_header_rejected. }
    simpl. unfold useEffect. simpl. rewrite Ha. rewrite decide_False by done.
    unfold run_effect. rewrite effect_signed_out by done. simpl.
    rewrite ?decide_True by done. unfold setPages, setError, removeToken.
    simpl. by rewrite Hpage.
Qed.

(** X23.  Loading the page: without a stored token nothing is asked and the
    list is empty; with a token the server accepts, the client shows that
    principal's listing; with a token the server rejects, the client ends
    signed out, with an empty list and "Failed to fetch pages.". *)
Theorem mount_outcomes (e : env) (d : db) :
  mount e None d = (initial_client None, d) ∧
  (∀ P t, t ≠ "" → as_principal P e (Some ("Bearer " +:+ t)) →
     mount e (Some t) d =
       (mkClient (Some t) (Some t) (Rows (listing P d)) None "" false, d)) ∧
  (∀ t, t ≠ "" →
     (∀ user, ¬ authenticated (clock e) (Some ("Bearer " +:+ t)) user) →
     mount e (Some t) d =
       (mkClient None None (Rows []) None "Failed to fetch pages." false, d)).
Proof.
  split; [done|]. split.
  - intros P t Ht A. unfold mount, run_effect.
    rewrite (effect_admitted P _ _ _ t) by done. simpl.
    by rewrite decide_True.
  - intros t Ht Hno. unfold mount, run_effect.
    rewrite (effect_rejected _ _ _ t) by done. simpl.
    by rewrite effect_signed_out.
Qed.

End ClientFlows.

(** * The claims on a concrete site *)

Import Ref.

Definition alice : user := mkUser 1 "alice@example.com" (bcrypt_hash "pw1" 10 "s1").
Definition bob : user := mkUser 2 "bob@example.com" (bcrypt_hash "pw2" 10 "s2").
Definition hi : page := mkPage 1 "Hi" (Some "<p>hello</p>") 1.

(** Two users, and one page of the first. *)
Definition site : db := mkDb [alice; bob] 2 [hi] 1.

Definition alice_claims : claims := mkClaims 1 "alice@example.com" 1000 4600.
Definition bob_claims : claims := mkClaims 2 "bob@example.com" 1000 4600.
Definition alice_token : string := jwt_sign 1 "alice@example.com" JWT_SECRET 1000.
Definition bob_token : string := jwt_sign 2 "bob@example.com" JWT_SECRET 1000.
Definition bearer (token : string) : option string := Some ("Bearer " +:+ token).
Definition at_noon : env := mkEnv 2000 "s3".

Ltac by_compute := vm_compute; reflexivity.
Ltac by_decision :=
  lazymatch goal with
  | |- ?P => refine (bool_decide_unpack P _); vm_compute; exact I
  end.

Lemma site_wf : pages_wf site.
Proof. split; by_decision. Defined.

Lemma bob_authenticated : authenticated (clock at_noon) (bearer bob_token) bob_claims.
Proof. exists bob_token. split; by_compute. Defined.

Lemma alice_authenticated :
  authenticated (clock at_noon) (bearer alice_token) alice_claims.
Proof. exists alice_token. split; by_compute. Defined.

Lemma ownership_isolation_witness :
  (pages_wf site ∧ hi ∈ pages site ∧
   authenticated (clock at_noon) (bearer bob_token) bob_claims ∧
   claims_id bob_claims ≠ page_userId hi) ∧
  app at_noon (PUT_pages (bearer bob_token) "1" (Some "Hack") None) site =
    (json 404 (Message
       "Page not found or you don't have permission to edit it."), site) ∧
  app at_noon (DELETE_pages (bearer bob_token) "1") site =
    (json 404 (Message
       "Page not found or you don't have permission to delete it."), site).
Proof.
  assert (hi ∈ pages site) as Hin by by_decision.
  assert (claims_id bob_claims ≠ page_userId hi) as Hne by (vm_compute; lia).
  split; [by repeat split; try apply site_wf; try apply bob_authenticated|].
  destruct (ownership_isolation site hi at_noon (bearer bob_token) bob_claims
              site_wf Hin bob_authenticated Hne) as (_ & Hput & Hdel).
  split.
  - apply (Hput "1" (Some "Hack") None). by_compute.
  - apply (Hdel "1"). by_compute.
Defined.

Lemma login_failures_indistinguishable_witness :
  (js_not (Some "alice@example.com") = false ∧ js_not (Some "guess") = false ∧
   get_user "alice@example.com" site = Done (Some alice) ∧
   bcrypt_compare "guess" (user_password alice) = false ∧
   (∀ u, u ∈ users site → user_email u ≠ "carol@example.com")) ∧
  post_login 2000 (Some "alice@example.com") (Some "guess") site =
    (json 401 (Message "Invalid credentials."), site) ∧
  post_login 2000 (Some "carol@example.com") (Some "guess") site =
    (json 401 (Message "Invalid credentials."), site).
Proof.
  assert (∀ u, u ∈ users site → user_email u ≠ "carol@example.com") as Hnone.
  { intros u Hu. apply elem_of_cons in Hu as [->|Hu]; [by vm_compute|].
    apply elem_of_cons in Hu as [->|Hu]; [by vm_compute|].
    by apply elem_of_nil in Hu. }
  split; [by repeat split|]. split.
  - apply login_failures_indistinguishable; [reflexivity..|].
    right. exists alice. split; by_compute.
  - apply login_failures_indistinguishable; [reflexivity..|]. by left.
Defined.

Lemma guard_outcomes_witness :
  authenticateToken 2000 None get_pages site = (sendStatus 401, site) ∧
  authenticateToken 2000 (Some "Bearer") get_pages site = (sendStatus 401, site) ∧
  authenticateToken 2000 (Some "Bearer abc") get_pages site =
    (sendStatus 403, site) ∧
  authenticateToken 5000 (bearer alice_token) get_pages site =
    (sendStatus 403, site) ∧
  authenticateToken 2000 (bearer alice_token) get_pages site =
    get_pages alice_claims site ∧
  authenticateToken 2000 (Some "") get_pages site = (sendStatus 403, site).
Proof.
  split; [|split; [|split; [|split; [|split]]]].
  - by apply (guard_outcomes 2000 None get_pages site).
  - by apply (guard_outcomes 2000 (Some "Bearer") get_pages site).
  - apply (guard_outcomes 2000 (Some "Bearer abc") get_pages site)
      with (token := "abc") (err := JsonWebTokenError); by_compute.
  - apply (guard_outcomes 5000 (bearer alice_token) get_pages site)
      with (token := alice_token) (err := TokenExpiredError); by_compute.
  - apply (guard_outcomes 2000 (bearer alice_token) get_pages site)
      with (token := alice_token); by_compute.
  - destruct (guard_outcomes 2000 (Some "") get_pages site)
      as (_ & _ & Hrefused & _ & _ & Hempty).
    apply (Hrefused "" JsonWebTokenError Hempty). by_compute.
Defined.

(** A header that is not of the shape [Bearer <token>] and is not answered
    401: under the scheme word [Basic], a token that does not verify is
    answered 403 and one that verifies is let through. *)
Lemma other_scheme_is_not_401 :
  bearer_shape "Basic abc" = false ∧
  app at_noon (GET_pages (Some "Basic abc")) site = (sendStatus 403, site) ∧
  bearer_shape ("Basic " +:+ alice_token) = false ∧
  app at_noon (GET_pages (Some ("Basic " +:+ alice_token))) site =
    (json 200 (Rows [mkRow 1 "Hi" (Some "<p>hello</p>")]), site).
Proof. repeat split; by_compute. Qed.

Lemma token_lifetime_witness :
  post_login 1000 (Some "alice@example.com") (Some "pw1") site =
    (json 200 (AccessToken alice_token), site) ∧
  ∃ u, u ∈ users site ∧ user_email u = str (Some "alice@example.com") ∧
    ∀ now next d0,
      (1000 + 3600 ≤ now →
         authenticateToken now (Some ("Bearer " +:+ alice_token)) next d0 =
           (sendStatus 403, d0)) ∧
      (now < 1000 + 3600 →
         authenticateToken now (Some ("Bearer " +:+ alice_token)) next d0 =
           next (mkClaims (user_id u) (user_email u) 1000 (1000 + 3600)) d0).
Proof.
  assert (post_login 1000 (Some "alice@example.com") (Some "pw1") site =
            (json 200 (AccessToken alice_token), site)) as Hlogin by by_compute.
  split; [exact Hlogin|]. exact (token_lifetime _ _ _ _ _ _ Hlogin).
Defined.

Lemma register_duplicate_email_witness :
  (post_register "s1" (Some "alice@example.com") (Some "pw1") empty_db =
     (json 201 (UserCreated "User created successfully." 1),
      mkDb [alice] 1 [] 0) ∧
   status (json 201 (UserCreated "User created successfully." 1)) = 201) ∧
  post_register "s9" (Some "alice@example.com") (Some "other")
      (run (mkDb [alice] 1 [] 0)
           [(at_noon, POST_register (Some "bob@example.com") (Some "pw2"))]) =
    (json 409 (Message "Email already in use."),
     run (mkDb [alice] 1 [] 0)
         [(at_noon, POST_register (Some "bob@example.com") (Some "pw2"))]).
Proof.
  assert (post_register "s1" (Some "alice@example.com") (Some "pw1") empty_db =
            (json 201 (UserCreated "User created successfully." 1),
             mkDb [alice] 1 [] 0)) as Hreg by by_compute.
  split; [by split|].
  exact (register_duplicate_email "s1" "s9" _ _ (Some "other") _ _ _
           [(at_noon, POST_register (Some "bob@example.com") (Some "pw2"))]
           Hreg eq_refl).
Defined.

Lemma alice_principal : as_principal 1 at_noon (bearer alice_token).
Proof. exists alice_claims. split; [apply alice_authenticated|reflexivity]. Defined.

Lemma crud_round_trip_witness :
  (as_principal 1 at_noon (bearer alice_token) ∧
   "T" ≠ "" ∧ "T2" ≠ "" ∧ integer_of_text "2" = Some (pages_seq site + 1)) ∧
  ∃ id d1 d2 d3 rows1 rows2 rows3,
    id = pages_seq site + 1 ∧
    app at_noon (POST_pages (bearer alice_token) (Some "T") (Some "C")) site =
      (json 201 (PageCreated id "T" (Some "C") 1), d1) ∧
    app at_noon (GET_pages (bearer alice_token)) d1 =
      (json 200 (Rows rows1), d1) ∧
    mkRow id "T" (Some "C") ∈ rows1 ∧
    app at_noon (PUT_pages (bearer alice_token) "2" (Some "T2") (Some "C2")) d1 =
      (json 200 (Message "Page updated successfully."), d2) ∧
    app at_noon (GET_pages (bearer alice_token)) d2 =
      (json 200 (Rows rows2), d2) ∧
    mkRow id "T2" (Some "C2") ∈ rows2 ∧
    (∀ r, r ∈ rows2 → row_id r = id → r = mkRow id "T2" (Some "C2")) ∧
    app at_noon (DELETE_pages (bearer alice_token) "2") d2 =
      (mkResponse 204 Empty, d3) ∧
    app at_noon (GET_pages (bearer alice_token)) d3 =
      (json 200 (Rows rows3), d3) ∧
    (∀ r, r ∈ rows3 → row_id r ≠ id).
Proof.
  assert ("T" ≠ "") as Ht by done.
  assert ("T2" ≠ "") as Ht2 by done.
  assert (integer_of_text "2" = Some (pages_seq site + 1)) as Hid by by_compute.
  split; [by repeat split; try apply alice_principal|].
  exact (crud_round_trip 1 site "T" "C" "T2" "C2" "2"
           at_noon at_noon at_noon at_noon at_noon at_noon
           _ _ _ _ _ _
           alice_principal alice_principal alice_principal
           alice_principal alice_principal alice_principal Ht Ht2 Hid).
Defined.

Lemma create_page_response_witness :
  authenticated (clock at_noon) (bearer alice_token) alice_claims ∧
  app at_noon (POST_pages (bearer alice_token) (Some "About") None) site =
    (json 201 (PageCreated 2 "About" None 1),
     mkDb [alice; bob] 2 [hi; mkPage 2 "About" (Some "") 1] 2) ∧
  app at_noon (POST_pages (bearer alice_token) (Some "") (Some "text")) site =
    (json 400 (Message "Title is required."), site).
Proof.
  split; [apply alice_authenticated|]. split.
  - exact (create_page_response at_noon (bearer alice_token) alice_claims
             (Some "About") None site alice_authenticated).
  - exact (create_page_response at_noon (bearer alice_token) alice_claims
             (Some "") (Some "text") site alice_authenticated).
Defined.

(** A creation whose request has no content is answered with a body that has
    no content either, while the row stored has the empty string. *)
Lemma created_body_has_no_default_content :
  authenticated (clock at_noon) (bearer alice_token) alice_claims ∧
  js_not (Some "About") = false ∧
  (app at_noon (POST_pages (bearer alice_token) (Some "About") None) site).1 =
    json 201 (PageCreated 2 "About" None 1) ∧
  (app at_noon (POST_pages (bearer alice_token) (Some "About") None) site).1 ≠
    json 201 (PageCreated 2 "About" (Some "") 1) ∧
  mkPage 2 "About" (Some "") 1 ∈
    pages (app at_noon (POST_pages (bearer alice_token) (Some "About") None)
               site).2.
Proof.
  split; [apply alice_authenticated|]. split; [done|]. split; [by_compute|].
  split; [|by_decision].
  assert ((app at_noon (POST_pages (bearer alice_token) (Some "About") None)
               site).1 = json 201 (PageCreated 2 "About" None 1)) as ->
    by by_compute.
  discriminate.
Qed.

Lemma owner_fixed_and_frame_witness :
  (pages_wf site ∧ hi ∈ pages site) ∧
  ∀ calls p', p' ∈ pages (run site calls) → page_id p' = page_id hi →
              page_userId p' = page_userId hi.
Proof.
  assert (hi ∈ pages site) as Hin by by_decision.
  split; [split; [apply site_wf|exact Hin]|].
  intros calls p'.
  destruct (@owner_fixed_and_frame _ _ _) as (_ & _ & Hfixed).
  exact (Hfixed site calls hi p' site_wf Hin).
Defined.

Lemma guard_ignores_scheme_witness :
  jwt_verify alice_token JWT_SECRET 2000 = Done alice_claims ∧
  authenticateToken 2000 (Some ("Basic " +:+ alice_token)) get_pages site =
    get_pages alice_claims site ∧
  authenticateToken 2000 (Some ("X " +:+ alice_token)) get_pages site =
    get_pages alice_claims site.
Proof.
  assert (jwt_verify alice_token JWT_SECRET 2000 = Done alice_claims) as Hv
    by by_compute.
  assert (has_space alice_token = false) as Hs by by_compute.
  split; [exact Hv|].
  destruct (guard_ignores_scheme 2000 alice_token alice_claims get_pages site Hv)
    as [_ Hscheme].
  split.
  - exact (Hscheme "Basic" eq_refl Hs).
  - exact (Hscheme "X" eq_refl Hs).
Defined.

Lemma update_without_content_stores_null_witness :
  (authenticated (clock at_noon) (bearer alice_token) alice_claims ∧
   js_not (Some "Hello") = false ∧ hi ∈ pages site ∧
   matches "1" (claims_id alice_claims) hi ∧
   page_content hi = Some "<p>hello</p>") ∧
  ∃ d',
    app at_noon (PUT_pages (bearer alice_token) "1" (Some "Hello") None) site =
      (json 200 (Message "Page updated successfully."), d') ∧
    mkPage (page_id hi) (str (Some "Hello")) None (page_userId hi) ∈ pages d' ∧
    (∀ q, q ∈ pages d' → matches "1" (claims_id alice_claims) q →
          page_title q = str (Some "Hello") ∧ page_content q = None) ∧
    (pages_wf site → ∀ q, q ∈ pages d' → page_id q = page_id hi →
          q = mkPage (page_id hi) (str (Some "Hello")) None (page_userId hi)).
Proof.
  assert (hi ∈ pages site) as Hin by by_decision.
  assert (matches "1" (claims_id alice_claims) hi) as Hm by by_decision.
  split; [by repeat split; try apply alice_authenticated|].
  exact (update_without_content_stores_null at_noon (bearer alice_token)
           alice_claims "1" (Some "Hello") site hi
           alice_authenticated eq_refl Hin Hm).
Defined.

(** * The further properties on the concrete site *)

Definition carol_signs_up : env * request :=
  (at_noon, POST_register (Some "carol@example.com") (Some "pw3")).

Lemma alice_registered :
  post_register "s1" (Some "alice@example.com") (Some "pw1") empty_db =
    (json 201 (UserCreated "User created successfully." 1), mkDb [alice] 1 [] 0).
Proof. by_compute. Defined.

Lemma register_then_login_witness :
  (post_register "s1" (Some "alice@example.com") (Some "pw1") empty_db =
     (json 201 (UserCreated "User created successfully." 1),
      mkDb [alice] 1 [] 0) ∧
   status (json 201 (UserCreated "User created successfully." 1)) = 201) ∧
  ∃ userId token,
    payload (json 201 (UserCreated "User created successfully." 1)) =
      UserCreated "User created successfully." userId ∧
    post_login 1000 (Some "alice@example.com") (Some "pw1")
        (run (mkDb [alice] 1 [] 0) [carol_signs_up]) =
      (json 200 (AccessToken token), run (mkDb [alice] 1 [] 0) [carol_signs_up]) ∧
    ∀ now' next d0,
      now' < 1000 + 3600 →
      authenticateToken now' (Some ("Bearer " +:+ token)) next d0 =
        next (mkClaims userId (str (Some "alice@example.com")) 1000
                       (1000 + 3600)) d0.
Proof.
  split; [split; [apply alice_registered|reflexivity]|].
  exact (register_then_login "s1" _ _ _ _ _ [carol_signs_up] 1000
           alice_registered eq_refl).
Defined.

Lemma site_users_wf : users_wf site.
Proof. repeat split; by_decision. Defined.

Lemma users_wf_run_witness :
  users_wf site ∧ users_wf (run site [carol_signs_up]).
Proof.
  split; [apply site_users_wf|].
  exact (users_wf_run site [carol_signs_up] site_users_wf).
Defined.

Lemma register_succeeds_iff_witness :
  (js_not (Some "carol@example.com") = false ∧ js_not (Some "pw3") = false ∧
   ∀ u, u ∈ users site → user_email u ≠ str (Some "carol@example.com")) ∧
  status (post_register "s3" (Some "carol@example.com") (Some "pw3") site).1
    = 201.
Proof.
  assert (∀ u, u ∈ users site → user_email u ≠ str (Some "carol@example.com"))
    as Hfresh.
  { intros u Hu. apply elem_of_cons in Hu as [->|Hu]; [by vm_compute|].
    apply elem_of_cons in Hu as [->|Hu]; [by vm_compute|].
    by apply elem_of_nil in Hu. }
  split; [by repeat split|].
  apply (register_succeeds_iff "s3" (Some "carol@example.com") (Some "pw3") site).
  by repeat split.
Defined.

Lemma login_succeeds_iff_witness :
  (js_not (Some "alice@example.com") = false ∧ js_not (Some "pw1") = false ∧
   get_user (str (Some "alice@example.com")) site = Done (Some alice) ∧
   bcrypt_compare (str (Some "pw1")) (user_password alice) = true) ∧
  post_login 1000 (Some "alice@example.com") (Some "pw1") site =
    (json 200 (AccessToken alice_token), site).
Proof.
  split; [repeat split; by_compute|].
  apply (login_succeeds_iff 1000 (Some "alice@example.com") (Some "pw1") site).
  do 2 (split; [reflexivity|]). exists alice. repeat split; by_compute.
Defined.

Lemma effects_only_on_success_witness :
  400 ≤ status (app at_noon (PUT_pages (bearer bob_token) "1" (Some "Hack") None)
                    site).1 ∧
  (app at_noon (PUT_pages (bearer bob_token) "1" (Some "Hack") None) site).2 =
    site.
Proof.
  assert (400 ≤ status (app at_noon
            (PUT_pages (bearer bob_token) "1" (Some "Hack") None) site).1) as Hst
    by (vm_compute; discriminate).
  split; [exact Hst|].
  exact (proj1 (effects_only_on_success at_noon
                  (PUT_pages (bearer bob_token) "1" (Some "Hack") None) site)
           Hst).
Defined.

Lemma bob_is_not_alice :
  ∀ authorization,
    request_authorization (POST_pages (bearer bob_token) (Some "Mine") None) =
      Some authorization →
    ¬ as_principal 1 at_noon authorization.
Proof.
  intros authorization [= <-] (user & Hu & Hid).
  pose proof (authenticated_unique _ _ _ _ Hu bob_authenticated) as ->.
  discriminate Hid.
Defined.

Lemma foreign_requests_keep_listing_witness :
  (∀ authorization,
     request_authorization (POST_pages (bearer bob_token) (Some "Mine") None) =
       Some authorization →
     ¬ as_principal 1 at_noon authorization) ∧
  listing 1 (app at_noon (POST_pages (bearer bob_token) (Some "Mine") None)
                 site).2 =
    listing 1 site.
Proof.
  split; [apply bob_is_not_alice|].
  exact (foreign_requests_keep_listing at_noon
           (POST_pages (bearer bob_token) (Some "Mine") None) site 1
           bob_is_not_alice).
Defined.

Lemma listing_after_create_witness :
  (as_principal 1 at_noon (bearer alice_token) ∧ js_not (Some "About") = false) ∧
  listing 1 (app at_noon (POST_pages (bearer alice_token) (Some "About") None)
                 site).2 =
    (listing 1 site ++ [mkRow (pages_seq site + 1) (str (Some "About"))
                          (Some (or_empty None))])%list.
Proof.
  split; [split; [apply alice_principal|reflexivity]|].
  exact (listing_after_create 1 at_noon (bearer alice_token) (Some "About") None
           site alice_principal eq_refl).
Defined.

Lemma listing_after_update_witness :
  (as_principal 1 at_noon (bearer alice_token) ∧ js_not (Some "Hello") = false ∧
   integer_of_text "1" = Some 1) ∧
  listing 1 (app at_noon (PUT_pages (bearer alice_token) "1" (Some "Hello") None)
                 site).2 =
    (λ r, if decide (row_id r = 1) then mkRow 1 (str (Some "Hello")) None else r)
      <$> listing 1 site.
Proof.
  assert (integer_of_text "1" = Some 1) as Hid by by_compute.
  split; [split; [apply alice_principal|split; [reflexivity|exact Hid]]|].
  exact (listing_after_update 1 at_noon (bearer alice_token) "1" 1
           (Some "Hello") None site alice_principal eq_refl Hid).
Defined.

Lemma listing_after_delete_witness :
  (as_principal 1 at_noon (bearer alice_token) ∧ integer_of_text "1" = Some 1) ∧
  listing 1 (app at_noon (DELETE_pages (bearer alice_token) "1") site).2 =
    filter (λ r, row_id r ≠ 1) (listing 1 site).
Proof.
  assert (integer_of_text "1" = Some 1) as Hid by by_compute.
  split; [split; [apply alice_principal|exact Hid]|].
  exact (listing_after_delete 1 at_noon (bearer alice_token) "1" 1 site
           alice_principal Hid).
Defined.

Definition bob_creates : env * request :=
  (at_noon, POST_pages (bearer bob_token) (Some "Mine") None).

Lemma alice_deletes_hi :
  app at_noon (DELETE_pages (bearer alice_token) "1") site =
    (mkResponse 204 Empty, mkDb [alice; bob] 2 [] 1).
Proof. by_compute. Defined.

Lemma deleted_id_stays_gone_witness :
  (pages_wf site ∧
   app at_noon (DELETE_pages (bearer alice_token) "1") site =
     (mkResponse 204 Empty, mkDb [alice; bob] 2 [] 1)) ∧
  (∀ p, p ∈ pages (run (mkDb [alice; bob] 2 [] 1) [bob_creates]) →
        integer_of_text "1" ≠ Some (page_id p)) ∧
  app at_noon (DELETE_pages (bearer alice_token) "1")
      (run (mkDb [alice; bob] 2 [] 1) [bob_creates]) =
    (json 404 (Message
       "Page not found or you don't have permission to delete it."),
     run (mkDb [alice; bob] 2 [] 1) [bob_creates]).
Proof.
  split; [split; [apply site_wf|apply alice_deletes_hi]|].
  destruct (deleted_id_stays_gone at_noon (bearer alice_token) "1" site
              (mkDb [alice; bob] 2 [] 1) [bob_creates] site_wf alice_deletes_hi)
    as [Hgone Hlater].
  split; [exact Hgone|].
  exact (proj1 (Hlater at_noon (bearer alice_token) alice_claims
                  alice_authenticated)).
Defined.

Lemma alice_creates_about :
  app at_noon (POST_pages (bearer alice_token) (Some "About") None) site =
    (json 201 (PageCreated 2 "About" None 1),
     mkDb [alice; bob] 2 [hi; mkPage 2 "About" (Some "") 1] 2).
Proof. by_compute. Defined.

Lemma bob_creates_after_deletion :
  app at_noon (POST_pages (bearer bob_token) (Some "Mine") (Some "x"))
      (run (mkDb [alice; bob] 2 [hi; mkPage 2 "About" (Some "") 1] 2)
           [(at_noon, DELETE_pages (bearer alice_token) "2")]) =
    (json 201 (PageCreated 3 "Mine" (Some "x") 2),
     mkDb [alice; bob] 2 [hi; mkPage 3 "Mine" (Some "x") 2] 3).
Proof. by_compute. Defined.

Lemma created_ids_increase_witness :
  (app at_noon (POST_pages (bearer alice_token) (Some "About") None) site =
     (json 201 (PageCreated 2 "About" None 1),
      mkDb [alice; bob] 2 [hi; mkPage 2 "About" (Some "") 1] 2) ∧
   app at_noon (POST_pages (bearer bob_token) (Some "Mine") (Some "x"))
       (run (mkDb [alice; bob] 2 [hi; mkPage 2 "About" (Some "") 1] 2)
            [(at_noon, DELETE_pages (bearer alice_token) "2")]) =
     (json 201 (PageCreated 3 "Mine" (Some "x") 2),
      mkDb [alice; bob] 2 [hi; mkPage 3 "Mine" (Some "x") 2] 3)) ∧
  ∃ id1 id2 u1 u2,
    json 201 (PageCreated 2 "About" None 1) =
      json 201 (PageCreated id1 (str (Some "About")) None u1) ∧
    json 201 (PageCreated 3 "Mine" (Some "x") 2) =
      json 201 (PageCreated id2 (str (Some "Mine")) (Some "x") u2) ∧
    id1 < id2 ∧
    (pages_wf site → ∀ p, p ∈ pages site → page_id p < id1).
Proof.
  split; [split; [apply alice_creates_about|apply bob_creates_after_deletion]|].
  exact (created_ids_increase at_noon at_noon _ _ _ _ _ _ _ _ _ _ _
           [(at_noon, DELETE_pages (bearer alice_token) "2")]
           alice_creates_about eq_refl bob_creates_after_deletion eq_refl).
Defined.

Lemma update_is_idempotent_witness :
  as_principal 1 at_noon (bearer alice_token) ∧
  app at_noon (PUT_pages (bearer alice_token) "1" (Some "Hello") (Some "x"))
      (app at_noon (PUT_pages (bearer alice_token) "1" (Some "Hello") (Some "x"))
           site).2 =
  app at_noon (PUT_pages (bearer alice_token) "1" (Some "Hello") (Some "x")) site.
Proof.
  split; [apply alice_principal|].
  exact (update_is_idempotent 1 at_noon at_noon _ _ "1" (Some "Hello") (Some "x")
           site alice_principal alice_principal).
Defined.

Lemma no_page_seven :
  ∀ p, p ∈ pages site → integer_of_text "7" ≠ Some (page_id p).
Proof.
  intros p Hp. apply elem_of_cons in Hp as [->|Hp]; [by vm_compute|].
  by apply elem_of_nil in Hp.
Defined.

Lemma unknown_id_is_404_witness :
  (authenticated (clock at_noon) (bearer alice_token) alice_claims ∧
   ∀ p, p ∈ pages site → integer_of_text "7" ≠ Some (page_id p)) ∧
  app at_noon (DELETE_pages (bearer alice_token) "7") site =
    (json 404 (Message
       "Page not found or you don't have permission to delete it."), site).
Proof.
  split; [split; [apply alice_authenticated|apply no_page_seven]|].
  exact (proj1 (unknown_id_is_404 at_noon (bearer alice_token) alice_claims "7"
                  site alice_authenticated no_page_seven)).
Defined.

Lemma guard_reads_second_piece_witness :
  (has_space "Bearer" = false ∧ has_space alice_token = false ∧
   jwt_verify alice_token JWT_SECRET 2000 = Done alice_claims) ∧
  authenticateToken 2000
    (Some ("Bearer" +:+ String " " (alice_token +:+ String " " "and more")))
    get_pages site =
    get_pages alice_claims site.
Proof.
  assert (has_space alice_token = false) as Hs by by_compute.
  assert (jwt_verify alice_token JWT_SECRET 2000 = Done alice_claims) as Hv
    by by_compute.
  split; [by repeat split|].
  exact (proj1 (guard_reads_second_piece 2000 "Bearer" alice_token "and more"
                  get_pages site eq_refl) alice_claims Hs Hv).
Defined.

Lemma users_append_only_witness :
  is_Some (request_authorization (DELETE_pages (bearer alice_token) "1")) ∧
  users (app at_noon (DELETE_pages (bearer alice_token) "1") site).2 =
    users site.
Proof.
  assert (is_Some (request_authorization
                     (DELETE_pages (bearer alice_token) "1"))) as Hp
    by by eexists.
  split; [exact Hp|].
  exact (proj1 (proj2 (users_append_only site []) at_noon
                  (DELETE_pages (bearer alice_token) "1") Hp)).
Defined.

(** ** The browser application on the concrete site *)

Definition signed_out : client := initial_client None.
Definition alice_client (currentPage : option form) : client :=
  mkClient (Some alice_token) (Some alice_token) (Rows (listing 1 site))
           currentPage "" false.
Definition at_login : env := mkEnv 1000 "s0".
Definition too_late : env := mkEnv 9000 "s4".

Lemma alice_token_present : alice_token ≠ "".
Proof. by_decision. Defined.

Lemma alice_session_over :
  ∀ user,
    ¬ authenticated (clock too_late) (Some ("Bearer " +:+ alice_token)) user.
Proof.
  intros user (token & Hb & Hv).
  assert (bearer_token (Some ("Bearer " +:+ alice_token)) = Some alice_token)
    as Hb' by by_compute.
  rewrite Hb' in Hb. injection Hb as <-.
  assert (jwt_verify alice_token JWT_SECRET (clock too_late) =
            Err TokenExpiredError) as Hv' by by_compute.
  rewrite Hv' in Hv. discriminate Hv.
Defined.

Lemma client_tokens_stay_in_sync_witness :
  in_sync signed_out ∧
  in_sync (client_step at_login at_noon
             (Submit false "alice@example.com" "pw1") signed_out site).1.
Proof.
  split; [reflexivity|].
  exact (proj2 client_tokens_stay_in_sync at_login at_noon
           (Submit false "alice@example.com" "pw1") signed_out site eq_refl).
Defined.

Lemma refused_submit_shows_message_witness :
  (js_not (app_token signed_out) = true ∧
   ok (app at_login (POST_login (Some "alice@example.com") (Some "guess"))
           site).1 = false) ∧
  ∃ message,
    payload (app at_login (POST_login (Some "alice@example.com") (Some "guess"))
                 site).1 = Message message ∧
    client_step at_login at_noon (Submit false "alice@example.com" "guess")
        signed_out site =
      (setError message signed_out, site).
Proof.
  assert (ok (app at_login
                (POST_login (Some "alice@example.com") (Some "guess")) site).1
          = false) as Hno by by_compute.
  split; [split; [reflexivity|exact Hno]|].
  exact (refused_submit_shows_message at_login at_noon false
           "alice@example.com" "guess" signed_out site eq_refl Hno).
Defined.

Lemma sign_in_shows_own_pages_witness :
  (js_not (app_token signed_out) = true ∧
   "alice@example.com" ≠ "" ∧ "pw1" ≠ "" ∧
   get_user "alice@example.com" site = Done (Some alice) ∧
   bcrypt_compare "pw1" (user_password alice) = true ∧
   alice_token ≠ "" ∧ clock at_noon < clock at_login + 3600) ∧
  client_step at_login at_noon (Submit false "alice@example.com" "pw1")
      signed_out site =
    (mkClient (Some alice_token) (Some alice_token) (Rows (listing 1 site))
              None "" false, site).
Proof.
  assert ("alice@example.com" ≠ "") as He by done.
  assert ("pw1" ≠ "") as Hp by done.
  assert (get_user "alice@example.com" site = Done (Some alice)) as Hg
    by by_compute.
  assert (bcrypt_compare "pw1" (user_password alice) = true) as Hc
    by by_compute.
  assert (clock at_noon < clock at_login + 3600) as Hnow by by_decision.
  split; [by repeat split; try apply alice_token_present|].
  exact (sign_in_shows_own_pages at_login at_noon "alice@example.com" "pw1"
           signed_out site alice eq_refl He Hp Hg Hc alice_token_present Hnow).
Defined.


(** The editor is open on the page [hi] in one window while the page is
    deleted from another. *)
Definition hi_form : form := mkForm (Some 1) "Hi" (Some "<p>hello</p>").
Definition hi_deleted : db :=
  (app at_noon (DELETE_pages (bearer alice_token) "1") site).2.

Lemma save_refused_when_page_is_gone_witness :
  ("Hi again" ≠ "" ∧
   as_principal 1 at_noon (Some ("Bearer " +:+ alice_token)) ∧
   ok (app at_noon (save_request (handleSave hi_form "Hi again" "<p>hello</p>")
                      (Some ("Bearer " +:+ alice_token))) hi_deleted).1 = false) ∧
  client_step at_noon at_noon (Save "Hi again" "<p>hello</p>")
      (alice_client (Some hi_form)) hi_deleted =
    (setError "Page not found or you don't have permission to edit it."
       (alice_client (Some hi_form)), hi_deleted).
Proof.
  assert ("Hi again" ≠ "") as Htitle by done.
  assert (ok (app at_noon
                (save_request (handleSave hi_form "Hi again" "<p>hello</p>")
                   (Some ("Bearer " +:+ alice_token))) hi_deleted).1 = false)
    as Hno by by_compute.
  split; [split; [exact Htitle|split; [apply alice_principal|exact Hno]]|].
  exact (proj2 (save_refused_when_page_is_gone 1 at_noon at_noon "Hi again"
                  "<p>hello</p>" (alice_client (Some hi_form)) hi_deleted
                  alice_token hi_form eq_refl eq_refl alice_token_present
                  eq_refl Htitle alice_principal) Hno).
Defined.

Lemma delete_keeps_list_in_step_witness :
  (as_principal 1 at_noon (Some ("Bearer " +:+ alice_token)) ∧
   app_pages (alice_client None) = Rows (listing 1 site) ∧
   integer_of_text (number_to_string 1) = Some 1 ∧ hi ∈ pages site) ∧
  ∃ d1,
    client_step at_noon at_noon (Delete true 1) (alice_client None) site =
      (setPages (Rows (listing 1 d1)) (alice_client None), d1) ∧
    pages d1 = filter (λ q, ¬ matches (number_to_string 1) 1 q) (pages site).
Proof.
  assert (integer_of_text (number_to_string 1) = Some 1) as Hid by by_compute.
  assert (hi ∈ pages site) as Hin by by_decision.
  split; [by repeat split; try apply alice_principal|].
  exact (proj1 (delete_keeps_list_in_step 1 at_noon at_noon 1 (alice_client None)
                  site alice_token hi eq_refl eq_refl alice_token_present
                  eq_refl alice_principal eq_refl Hid Hin eq_refl eq_refl)).
Defined.

Lemma rejected_request_signs_out_witness :
  (∀ user,
     ¬ authenticated (clock too_late) (Some ("Bearer " +:+ alice_token)) user) ∧
  client_step too_late too_late (Delete true 1) (alice_client None) site =
    (mkClient None None (Rows []) None "Failed to delete page." false, site).
Proof.
  split; [apply alice_session_over|].
  exact (proj1 (rejected_request_signs_out too_late too_late (alice_client None)
                  site alice_token eq_refl eq_refl alice_token_present
                  alice_session_over) eq_refl 1).
Defined.

Lemma mount_outcomes_witness :
  (as_principal 1 at_noon (Some ("Bearer " +:+ alice_token)) ∧
   ∀ user,
     ¬ authenticated (clock too_late) (Some ("Bearer " +:+ alice_token)) user) ∧
  mount at_noon (Some alice_token) site =
    (mkClient (Some alice_token) (Some alice_token) (Rows (listing 1 site))
              None "" false, site) ∧
  mount too_late (Some alice_token) site =
    (mkClient None None (Rows []) None "Failed to fetch pages." false, site).
Proof.
  split; [split; [apply alice_principal|apply alice_session_over]|]. split.
  - exact (proj1 (proj2 (mount_outcomes at_noon site)) 1 alice_token
             alice_token_present alice_principal).
  - exact (proj2 (proj2 (mount_outcomes too_late site)) alice_token
             alice_token_present alice_session_over).
Defined.

Lemma create_then_delete_witness :
  (pages_wf site ∧ as_principal 1 at_noon (bearer alice_token) ∧
   js_not (Some "About") = false ∧ integer_of_text "2" = Some (pages_seq site + 1)) ∧
  ∃ d2,
    app at_noon (DELETE_pages (bearer alice_token) "2")
        (app at_noon (POST_pages (bearer alice_token) (Some "About") None) site).2 =
      (mkResponse 204 Empty, d2) ∧
    users d2 = users site ∧ users_seq d2 = users_seq site ∧
    pages d2 = pages site ∧ pages_seq d2 = pages_seq site + 1.
Proof.
  assert (integer_of_text "2" = Some (pages_seq site + 1)) as Hid by by_compute.
  split; [by repeat split; try apply site_wf; try apply alice_principal|].
  exact (create_then_delete 1 at_noon at_noon _ _ (Some "About") None "2" site
           site_wf alice_principal alice_principal eq_refl Hid).
Defined.

Lemma last_write_wins_witness :
  (as_principal 1 at_noon (bearer alice_token) ∧ js_not (Some "Second") = false) ∧
  app at_noon (PUT_pages (bearer alice_token) "1" (Some "Second") None)
      (app at_noon (PUT_pages (bearer alice_token) "1" (Some "First") (Some "x"))
           site).2 =
  app at_noon (PUT_pages (bearer alice_token) "1" (Some "Second") None) site.
Proof.
  split; [split; [apply alice_principal|reflexivity]|].
  exact (last_write_wins 1 at_noon at_noon _ _ "1" (Some "First") (Some "x")
           (Some "Second") None site alice_principal alice_principal eq_refl).
Defined.

